(** * The Slack plugin of SourceCred: graph construction and mirror store

    A shallow embedding of [src/plugins/slack]: the address scheme, the node
    and edge factories and [createGraph] (createGraph.js), and the versioned,
    transactional initialisation of [SqliteMirrorRepository]
    (mirrorRepository.js).

    Conventions of the embedding.
    - A JavaScript string is a [string]; [substring(0, n)] and [slice(0, n)]
      on a string are [substring 0 n]; [String(x)] applied to a string is
      the string itself.
    - A JavaScript number is a binary64 [float]; [Number(x)] applied to a
      number is the number itself.
    - An address of the core graph library is the list of the components
      handed to [NodeAddress.append] / [EdgeAddress.append] after the
      prefix of the node or edge type.
    - The weighted graph container of the core library is external: the
      value built by [createGraph] is the sequence of calls it receives
      ([addNode], [addEdge], [nodeWeights.set]), oldest first.
    - The [better-sqlite3] handle is a record with the committed store and,
      while a transaction is open, the uncommitted working copy. *)

From Stdlib Require Import String Ascii List Bool ZArith PrimFloat.
From stdpp Require Import gmap strings.
Import ListNotations.

Local Open Scope string_scope.

(** ** Data model (models.js) *)

Module Model.

Definition SlackToken := string.

Module User.
Record t := mk { id : string; name : string; email : string }.
End User.

Module Channel.
Record t := mk { id : string; name : string }.
End Channel.

Module Message.
Record t := mk {
  id : string;
  channel : string;
  authorId : string;
  text : string;
  isThread : bool;
  inReplyTo : string;
  hasReactions : bool;
  hasMentions : bool;
  mentions : list string
}.
End Message.

(** An element of [repo.reactions(channel, id)]: [createGraph] reads its
    fields [reaction] (the emoji name) and [reactor] (a member id). *)
Module Reaction.
Record t := mk { reaction : string; reactor : string }.
End Reaction.

End Model.

Import Model.

(** ** Weight configuration (config.js, [SlackConfig.weights]) *)

Record WeightTable := {
  defaultWeight : float;
  weights : gmap string float
}.

Record WeightConfig := {
  channelWeights : WeightTable;
  emojiWeights : WeightTable
}.

(** ** Addresses, nodes and edges of the core graph library *)

(** Flow types are erased at run time, so the [reaction] parameter of the
    factories holds whatever the caller passes: the emoji name (a string)
    or a whole reaction record. *)
Inductive Part :=
| Str (s : string)
| Obj (r : Reaction.t).

(** Conversion to a string inside a template literal. *)
Definition toString (p : Part) : string :=
  match p with
  | Str s => s
  | Obj _ => "[object Object]"
  end.

Definition NodeAddressT := list Part.
Definition EdgeAddressT := list Part.

Module NodeAddress.
Definition append (base : NodeAddressT) (parts : list Part) : NodeAddressT :=
  (base ++ parts)%list.
End NodeAddress.

Module EdgeAddress.
Definition append (base : EdgeAddressT) (parts : list Part) : EdgeAddressT :=
  (base ++ parts)%list.
End EdgeAddress.

Module Node.
Record t := mk {
  address : NodeAddressT;
  description : string;
  timestampMs : option float   (* [None] is JavaScript's null *)
}.
End Node.

Module Edge.
Record t := mk {
  address : EdgeAddressT;
  timestampMs : float;
  src : NodeAddressT;
  dst : NodeAddressT
}.
End Edge.

(** What createGraph.js imports and this repository does not define:
    [escape] of the entities package, the builtin [parseFloat],
    [reactionWeight] of reactionWeights.js and the type prefixes of
    declaration.js. *)
Class Externs := {
  escape : string -> string;
  parseFloat : string -> float;
  reactionWeight : WeightConfig -> string -> string -> string -> string -> float;
  memberNodeType_prefix : NodeAddressT;
  messageNodeType_prefix : NodeAddressT;
  reactionNodeType_prefix : NodeAddressT;
  authorsMessageEdgeType_prefix : EdgeAddressT;
  addsReactionEdgeType_prefix : EdgeAddressT;
  reactsToEdgeType_prefix : EdgeAddressT;
  mentionsEdgeType_prefix : EdgeAddressT;
  messageRepliesEdgeType_prefix : EdgeAddressT
}.

(** The read interface of [SqliteMirrorRepository] used by [createGraph]. *)
Module Repo.
Record t := mk {
  members : list User.t;
  channels : list Channel.t;
  messages : string -> list Message.t;
  reactions : string -> string -> list Reaction.t;
  thread : string -> list string;
  message : string -> Message.t
}.
End Repo.

(** The calls received by the weighted graph container. *)
Inductive Call :=
| AddNode (n : Node.t)
| AddEdge (e : Edge.t)
| SetNodeWeight (a : NodeAddressT) (w : float).

Definition WeightedGraphT := list Call.

Definition addNode (n : Node.t) (wg : WeightedGraphT) : WeightedGraphT :=
  (wg ++ [AddNode n])%list.
Definition addEdge (e : Edge.t) (wg : WeightedGraphT) : WeightedGraphT :=
  (wg ++ [AddEdge e])%list.
Definition nodeWeights_set (a : NodeAddressT) (w : float) (wg : WeightedGraphT)
  : WeightedGraphT :=
  (wg ++ [SetNodeWeight a w])%list.

(** The nodes, edges and node weights handed to the container. *)
Definition nodes (wg : WeightedGraphT) : list Node.t :=
  flat_map (fun c => match c with AddNode n => [n] | _ => [] end) wg.
Definition edges (wg : WeightedGraphT) : list Edge.t :=
  flat_map (fun c => match c with AddEdge e => [e] | _ => [] end) wg.
Definition nodeWeights (wg : WeightedGraphT) : list (NodeAddressT * float) :=
  flat_map (fun c => match c with SetNodeWeight a w => [(a, w)] | _ => [] end) wg.

Definition dquote : string := String (ascii_of_nat 34) EmptyString.
Definition backquote : string := String (ascii_of_nat 96) EmptyString.

Section CreateGraph.

Context {E : Externs}.

Definition MESSAGE_LENGTH : nat := 30.

(** *** Addresses *)

Definition memberAddress (member : User.t) : NodeAddressT :=
  NodeAddress.append memberNodeType_prefix [Str (User.email member)].

Definition messageAddress (message : Message.t) : NodeAddressT :=
  NodeAddress.append messageNodeType_prefix
    [Str (Message.channel message); Str (Message.id message)].

Definition reactionAddress (reaction : Part) (message : Message.t)
  : NodeAddressT :=
  NodeAddress.append reactionNodeType_prefix
    [Str (Message.channel message);
     reaction;
     Str (Message.authorId message);
     Str (Message.id message)].

(** *** Nodes *)

Definition memberNode (member : User.t) : Node.t :=
  let description := "slack/#" +:+ escape (substring 0 20 (User.id member)) in
  {| Node.address := memberAddress member;
     Node.description := description;
     Node.timestampMs := None |}.

Definition messageNode (message : Message.t) (channelName : string) : Node.t :=
  let partialMessage :=
    escape (substring 0 MESSAGE_LENGTH (Message.text message)) in
  let description :=
    "#" +:+ channelName +:+ " message [" +:+ dquote +:+ partialMessage
        +:+ "..." +:+ dquote +:+ "]" in
  {| Node.address := messageAddress message;
     Node.description := description;
     Node.timestampMs := Some (parseFloat (Message.id message) * 1000)%float |}.

Definition reactionNode (message : Message.t) (reaction : Part) : Node.t :=
  let reactionStr := reaction in
  let description :=
    "Reacted " +:+ backquote +:+ toString reactionStr +:+ backquote
      +:+ " to message [" +:+ Message.id message +:+ "] in channel "
      +:+ Message.channel message in
  {| Node.address := reactionAddress reaction message;
     Node.description := description;
     Node.timestampMs := Some (parseFloat (Message.id message) * 1000)%float |}.

(** *** Edges *)

Definition authorsMessageEdge (message : Message.t) (author : User.t)
  : Edge.t :=
  let address :=
    EdgeAddress.append authorsMessageEdgeType_prefix
      [Str (User.id author);
       Str (Message.channel message);
       Str (Message.id message)] in
  {| Edge.address := address;
     Edge.timestampMs := (parseFloat (Message.id message) * 1000)%float;
     Edge.src := memberAddress author;
     Edge.dst := messageAddress message |}.

Definition addsReactionEdge (reaction : Part) (member : User.t)
    (message : Message.t) : Edge.t :=
  let address :=
    EdgeAddress.append addsReactionEdgeType_prefix
      [Str (User.id member);
       reaction;
       Str (Message.channel message);
       Str (Message.id message)] in
  {| Edge.address := address;
     Edge.timestampMs := (parseFloat (Message.id message) * 1000)%float;
     Edge.src := memberAddress member;
     Edge.dst := reactionAddress reaction message |}.

Definition reactsToEdge (reaction : Part) (message : Message.t) : Edge.t :=
  let address :=
    EdgeAddress.append reactsToEdgeType_prefix
      [reaction;
       Str (Message.authorId message);
       Str (Message.channel message);
       Str (Message.id message)] in
  {| Edge.address := address;
     Edge.timestampMs := (parseFloat (Message.id message) * 1000)%float;
     Edge.src := reactionAddress reaction message;
     Edge.dst := messageAddress message |}.

Definition mentionsEdge (message : Message.t) (member : User.t) : Edge.t :=
  let address :=
    EdgeAddress.append mentionsEdgeType_prefix
      [Str (Message.channel message);
       Str (Message.authorId message);
       Str (Message.id message);
       Str (User.id member)] in
  {| Edge.address := address;
     Edge.timestampMs := (parseFloat (Message.id message) * 1000)%float;
     Edge.src := messageAddress message;
     Edge.dst := memberAddress member |}.

Definition repliesEdge (message reply : Message.t) : Edge.t :=
  let address :=
    EdgeAddress.append messageRepliesEdgeType_prefix
      [Str (Message.channel message);
       Str (Message.authorId message);
       Str (Message.id message);
       Str (Message.channel reply);
       Str (Message.authorId reply);
       Str (Message.id reply)] in
  {| Edge.address := address;
     Edge.timestampMs := (parseFloat (Message.id message) * 1000)%float;
     Edge.src := messageAddress message;
     Edge.dst := messageAddress reply |}.

(** *** createGraph *)

(** [new Map(repo.members().map((m) => [m.id, m]))]: entries are set in
    order, so of two members with one id the later one stays. *)
Definition memberMapOf (members : list User.t) : gmap string User.t :=
  foldl (fun memberMap m => <[User.id m := m]> memberMap) ∅ members.

Section Loop.

Variable repo : Repo.t.
Variable weights : WeightConfig.
Variable memberMap : gmap string User.t.

(** One turn of [for (const reaction of reactions)]; the state is the
    graph and the flag [hasEdges]. *)
Definition reactionStep (message : Message.t)
    (st : WeightedGraphT * bool) (reaction : Reaction.t)
  : WeightedGraphT * bool :=
  let '(wg, hasEdges) := st in
  match memberMap !! Reaction.reactor reaction with
  | None => (wg, hasEdges)
  | Some reactingMember =>
      let node := reactionNode message (Obj reaction) in
      let wg :=
        nodeWeights_set (Node.address node)
          (reactionWeight weights (Reaction.reaction reaction)
             (Reaction.reactor reaction) (Message.authorId message)
             (Message.channel message)) wg in
      let wg := addNode node wg in
      let wg := addNode (memberNode reactingMember) wg in
      let wg :=
        addEdge (reactsToEdge (Str (Reaction.reaction reaction)) message) wg in
      let wg :=
        addEdge (addsReactionEdge (Str (Reaction.reaction reaction))
                   reactingMember message) wg in
      (wg, true)
  end.

(** One turn of [for (const user of message.mentions)]. *)
Definition mentionStep (message : Message.t)
    (st : WeightedGraphT * bool) (user : string)
  : WeightedGraphT * bool :=
  let '(wg, hasEdges) := st in
  match memberMap !! user with
  | None => (wg, hasEdges)
  | Some mentionedMember =>
      let wg := addNode (memberNode mentionedMember) wg in
      let wg := addEdge (mentionsEdge message mentionedMember) wg in
      (wg, true)
  end.

(** One turn of [for (const replyId of allReplies)]. *)
Definition replyStep (channel : Channel.t) (message : Message.t)
    (wg : WeightedGraphT) (replyId : string) : WeightedGraphT :=
  let replyMessage := Repo.message repo replyId in
  let wg := addNode (messageNode replyMessage (Channel.name channel)) wg in
  addEdge (repliesEdge message replyMessage) wg.

(** [message.isThread && message.inReplyTo === message.id] *)
Definition isThreadStarter (message : Message.t) : bool :=
  Message.isThread message
  && String.eqb (Message.inReplyTo message) (Message.id message).

(** The body of [for (const message of messages)]. *)
Definition messageStep (channel : Channel.t)
    (wg : WeightedGraphT) (message : Message.t) : WeightedGraphT :=
  if negb (Message.hasReactions message) && negb (Message.hasMentions message)
  then wg
  else
    let hasEdges := false in
    let reactions :=
      Repo.reactions repo (Message.channel message) (Message.id message) in
    let '(wg, hasEdges) :=
      foldl (reactionStep message) (wg, hasEdges) reactions in
    let '(wg, hasEdges) :=
      foldl (mentionStep message) (wg, hasEdges) (Message.mentions message) in
    let wg :=
      if isThreadStarter message then
        let allReplies := Repo.thread repo (Message.id message) in
        let wg := addNode (messageNode message (Channel.name channel)) wg in
        foldl (replyStep channel message) wg allReplies
      else wg in
    if hasEdges then
      match memberMap !! Message.authorId message with
      | None => wg
      | Some author =>
          let wg := addNode (memberNode author) wg in
          let wg := addNode (messageNode message (Channel.name channel)) wg in
          addEdge (authorsMessageEdge message author) wg
      end
    else wg.

(** The body of [for (const channel of channels)]. *)
Definition channelStep (wg : WeightedGraphT) (channel : Channel.t)
  : WeightedGraphT :=
  let messages := Repo.messages repo (Channel.id channel) in
  foldl (messageStep channel) wg messages.

End Loop.

Definition createGraph (token : SlackToken) (repo : Repo.t)
    (weights : WeightConfig) : WeightedGraphT :=
  let wg : WeightedGraphT := [] in
  let memberMap := memberMapOf (Repo.members repo) in
  let channels := Repo.channels repo in
  foldl (channelStep repo weights memberMap) wg channels.

End CreateGraph.

(** ** What each loop of [createGraph] hands to the container *)

Section CreateGraphCalls.

Context {E : Externs}.
Variable repo : Repo.t.
Variable weights : WeightConfig.
Variable memberMap : gmap string User.t.

(** The calls of one turn of the reaction loop. *)
Definition reactionCalls (message : Message.t) (reaction : Reaction.t)
  : list Call :=
  match memberMap !! Reaction.reactor reaction with
  | None => []
  | Some reactingMember =>
      [SetNodeWeight (reactionAddress (Obj reaction) message)
         (reactionWeight weights (Reaction.reaction reaction)
            (Reaction.reactor reaction) (Message.authorId message)
            (Message.channel message));
       AddNode (reactionNode message (Obj reaction));
       AddNode (memberNode reactingMember);
       AddEdge (reactsToEdge (Str (Reaction.reaction reaction)) message);
       AddEdge (addsReactionEdge (Str (Reaction.reaction reaction))
                  reactingMember message)]
  end.

(** The calls of one turn of the mention loop. *)
Definition mentionCalls (message : Message.t) (user : string) : list Call :=
  match memberMap !! user with
  | None => []
  | Some mentionedMember =>
      [AddNode (memberNode mentionedMember);
       AddEdge (mentionsEdge message mentionedMember)]
  end.

(** The calls of one turn of the reply loop. *)
Definition replyCalls (channel : Channel.t) (message : Message.t)
    (replyId : string) : list Call :=
  [AddNode (messageNode (Repo.message repo replyId) (Channel.name channel));
   AddEdge (repliesEdge message (Repo.message repo replyId))].

(** The calls of the thread starter block. *)
Definition threadCalls (channel : Channel.t) (message : Message.t)
  : list Call :=
  if isThreadStarter message then
    AddNode (messageNode message (Channel.name channel))
      :: flat_map (replyCalls channel message)
           (Repo.thread repo (Message.id message))
  else [].

(** The calls of the authorship block, behind the flag [hasEdges]. *)
Definition authorCalls (channel : Channel.t) (message : Message.t)
    (hasEdges : bool) : list Call :=
  if hasEdges then
    match memberMap !! Message.authorId message with
    | None => []
    | Some author =>
        [AddNode (memberNode author);
         AddNode (messageNode message (Channel.name channel));
         AddEdge (authorsMessageEdge message author)]
    end
  else [].

(** A reaction or a mention materialises when its member is known. *)
Definition knownReactor (reaction : Reaction.t) : bool :=
  bool_decide (is_Some (memberMap !! Reaction.reactor reaction)).
Definition knownMember (user : string) : bool :=
  bool_decide (is_Some (memberMap !! user)).

(** The value of [hasEdges] after the two loops. *)
Definition hasEdgesOf (message : Message.t) : bool :=
  existsb knownReactor
    (Repo.reactions repo (Message.channel message) (Message.id message))
  || existsb knownMember (Message.mentions message).

(** The guard at the head of the message loop lets the message through. *)
Definition passesGuard (message : Message.t) : bool :=
  Message.hasReactions message || Message.hasMentions message.

(** All the calls made while one message is processed. *)
Definition messageCalls (channel : Channel.t) (message : Message.t)
  : list Call :=
  if passesGuard message then
    (flat_map (reactionCalls message)
       (Repo.reactions repo (Message.channel message) (Message.id message))
     ++ flat_map (mentionCalls message) (Message.mentions message)
     ++ threadCalls channel message
     ++ authorCalls channel message (hasEdgesOf message))%list
  else [].

Definition channelCalls (channel : Channel.t) : list Call :=
  flat_map (messageCalls channel) (Repo.messages repo (Channel.id channel)).

End CreateGraphCalls.

(** ** The mirror store (mirrorRepository.js) *)

(** The store behind a handle: the rows [(zero, config)] of the singleton
    table [meta] when that table exists, and the names of the other tables.
    Tables are all it holds: views, indexes and names that differ by case
    only are outside this model. *)
Module Store.
Record t := mk {
  meta : option (list (Z * string));
  tables : gset string
}.
Definition pristine : t := {| meta := None; tables := ∅ |}.
End Store.

(** The database handle: statements read and write the working copy while
    a transaction is open, the committed store otherwise. *)
Module Database.
Record t := mk {
  committed : Store.t;
  working : option Store.t
}.

Definition inTransaction (db : t) : bool :=
  match working db with Some _ => true | None => false end.

Definition current (db : t) : Store.t :=
  match working db with Some s => s | None => committed db end.

Definition write (f : Store.t -> Store.t) (db : t) : t :=
  match working db with
  | Some s => {| committed := committed db; working := Some (f s) |}
  | None => {| committed := f (committed db); working := None |}
  end.

(** A fresh handle on a store, as [new Database(file)] gives. *)
Definition connect (s : Store.t) : t := {| committed := s; working := None |}.
End Database.

(** Code that runs against the handle and may throw. *)
Inductive Outcome (A : Type) :=
| Return (a : A)
| Throw (message : string).
Arguments Return {A} a.
Arguments Throw {A} message.

Definition M (A : Type) : Type := Database.t -> Outcome A * Database.t.

Definition ret {A} (a : A) : M A := fun db => (Return a, db).
Definition throw {A} (message : string) : M A := fun db => (Throw message, db).
Definition bind {A B} (c : M A) (k : A -> M B) : M B :=
  fun db =>
    match c db with
    | (Return a, db') => k a db'
    | (Throw message, db') => (Throw message, db')
    end.

Notation "x <- c ;; k" := (bind c (fun x => k))
  (at level 100, c at next level, right associativity).
Notation "c ;;; k" := (bind c (fun _ => k))
  (at level 100, right associativity).

(** [try { body } finally { cleanup }]: the cleanup runs on both exits and
    the outcome of the body stands unless the cleanup throws. *)
Definition tryFinally {A} (body : M A) (cleanup : M unit) : M A :=
  fun db =>
    let '(r, db1) := body db in
    match cleanup db1 with
    | (Return _, db2) => (r, db2)
    | (Throw message, db2) => (Throw message, db2)
    end.

Fixpoint forEach {A} (f : A -> M unit) (l : list A) : M unit :=
  match l with
  | [] => ret tt
  | x :: l' => f x ;;; forEach f l'
  end.

(** *** The statements run by the repository *)

Module Sql.

Definition BEGIN : M unit := fun db =>
  if Database.inTransaction db
  then (Throw "cannot start a transaction within a transaction", db)
  else (Return tt,
        {| Database.committed := Database.committed db;
           Database.working := Some (Database.committed db) |}).

Definition COMMIT : M unit := fun db =>
  match Database.working db with
  | Some s => (Return tt, {| Database.committed := s; Database.working := None |})
  | None => (Throw "cannot commit - no transaction is active", db)
  end.

Definition ROLLBACK : M unit := fun db =>
  match Database.working db with
  | Some _ =>
      (Return tt,
       {| Database.committed := Database.committed db;
          Database.working := None |})
  | None => (Throw "cannot rollback - no transaction is active", db)
  end.

(** [CREATE TABLE IF NOT EXISTS meta (...)] *)
Definition createMetaIfNotExists : M unit := fun db =>
  (Return tt,
   Database.write
     (fun s =>
        match Store.meta s with
        | Some _ => s
        | None => {| Store.meta := Some []; Store.tables := Store.tables s |}
        end) db).

(** [SELECT config FROM meta], plucked, first row or undefined. *)
Definition selectConfig : M (option string) := fun db =>
  match Store.meta (Database.current db) with
  | None => (Throw "no such table: meta", db)
  | Some [] => (Return None, db)
  | Some ((_, config) :: _) => (Return (Some config), db)
  end.

(** [INSERT INTO meta (zero, config) VALUES (0, ?)] *)
Definition insertMeta (config : string) : M unit := fun db =>
  match Store.meta (Database.current db) with
  | None => (Throw "no such table: meta", db)
  | Some rows =>
      if existsb (fun row => Z.eqb (fst row) 0) rows
      then (Throw "UNIQUE constraint failed: meta.zero", db)
      else (Return tt,
            Database.write
              (fun s =>
                 {| Store.meta := Some (rows ++ [(0%Z, config)])%list;
                    Store.tables := Store.tables s |}) db)
  end.

(** [CREATE TABLE name (...)], which fails on an existing table. *)
Definition createTable (name : string) : M unit := fun db =>
  if bool_decide (name ∈ Store.tables (Database.current db))
  then (Throw ("table " +:+ name +:+ " already exists"), db)
  else (Return tt,
        Database.write
          (fun s =>
             {| Store.meta := Store.meta s;
                Store.tables := {[ name ]} ∪ Store.tables s |}) db).

End Sql.

(** *** SqliteMirrorRepository *)

Definition VERSION : string := "slack_mirror_v0".

(** [stringify({version: VERSION})] *)
Definition stringify_version (version : string) : string :=
  "{" +:+ dquote +:+ "version" +:+ dquote +:+ ":" +:+ dquote +:+ version
      +:+ dquote +:+ "}".

Definition contentTables : list string :=
  ["channels"; "members"; "messages"; "message_reactions"; "message_mentions"].

Definition _transaction (queries : M unit) : M unit :=
  fun db =>
    if Database.inTransaction db then (Throw "already in transaction", db)
    else
      tryFinally
        (Sql.BEGIN ;;;
         queries ;;;
         (fun db => if Database.inTransaction db then Sql.COMMIT db
                    else (Return tt, db)))
        (fun db => if Database.inTransaction db then Sql.ROLLBACK db
                   else (Return tt, db))
        db.

Definition _initialize (token : SlackToken) : M unit :=
  Sql.createMetaIfNotExists ;;;
  let config := stringify_version VERSION in
  existingConfig <- Sql.selectConfig ;;
  match existingConfig with
  | Some existing =>
      if String.eqb existing config then ret tt
      else throw "Database already populated with incompatible server or version"
  | None =>
      Sql.insertMeta config ;;;
      forEach Sql.createTable contentTables
  end.

(** [new SqliteMirrorRepository(db, token)]; [None] is a null handle. The
    second component is the handle as the constructor leaves it. *)
Definition SqliteMirrorRepository (db : option Database.t) (token : SlackToken)
  : Outcome unit * option Database.t :=
  match db with
  | None => (Throw "db: null", None)
  | Some db =>
      let '(r, db') := _transaction (_initialize token) db in
      (r, Some db')
  end.

(** A body that works inside the transaction it is given: it leaves the
    transaction open and writes to the working copy only. Every statement
    other than [BEGIN], [COMMIT] and [ROLLBACK] is of this kind. *)
Definition txLocal {A} (queries : M A) : Prop :=
  forall db,
    Database.inTransaction db = true ->
    Database.inTransaction (snd (queries db)) = true
    /\ Database.committed (snd (queries db)) = Database.committed db.

(** ** Sample snapshots and stores *)

Module Sample.

(** Stand-ins for the imports: an escape of the five HTML specials, a
    [parseFloat] that reads a leading run of decimal digits (and gives
    NaN when there is none), a weight resolver that multiplies the emoji
    and channel weights, and the type prefixes. *)
Definition escapeChar (c : ascii) : string :=
  if Ascii.eqb c "&" then "&amp;"
  else if Ascii.eqb c "<" then "&lt;"
  else if Ascii.eqb c ">" then "&gt;"
  else if Ascii.eqb c (ascii_of_nat 34) then "&quot;"
  else if Ascii.eqb c "'" then "&apos;"
  else String c EmptyString.

Fixpoint escapeHtml (s : string) : string :=
  match s with
  | EmptyString => EmptyString
  | String c s' => escapeChar c +:+ escapeHtml s'
  end.

Definition digit (c : ascii) : option float :=
  if Ascii.eqb c "0" then Some 0%float
  else if Ascii.eqb c "1" then Some 1%float
  else if Ascii.eqb c "2" then Some 2%float
  else if Ascii.eqb c "3" then Some 3%float
  else if Ascii.eqb c "4" then Some 4%float
  else if Ascii.eqb c "5" then Some 5%float
  else if Ascii.eqb c "6" then Some 6%float
  else if Ascii.eqb c "7" then Some 7%float
  else if Ascii.eqb c "8" then Some 8%float
  else if Ascii.eqb c "9" then Some 9%float
  else None.

Fixpoint digits (acc : option float) (s : string) : option float :=
  match s with
  | EmptyString => acc
  | String c s' =>
      match digit c with
      | None => acc
      | Some d =>
          digits (Some (match acc with
                        | None => d
                        | Some a => (a * 10 + d)%float
                        end)) s'
      end
  end.

Definition leadingDigits (s : string) : float :=
  match digits None s with Some x => x | None => nan end.

Definition lookupWeight (table : WeightTable) (key : string) : float :=
  match weights table !! key with
  | Some w => w
  | None => defaultWeight table
  end.

Definition externs : Externs :=
  {| escape := escapeHtml;
     parseFloat := leadingDigits;
     reactionWeight := fun config reaction _ _ channel =>
       (lookupWeight (emojiWeights config) reaction
        * lookupWeight (channelWeights config) channel)%float;
     memberNodeType_prefix := [Str "sourcecred"; Str "slack"; Str "MEMBER"];
     messageNodeType_prefix := [Str "sourcecred"; Str "slack"; Str "MESSAGE"];
     reactionNodeType_prefix := [Str "sourcecred"; Str "slack"; Str "REACTION"];
     authorsMessageEdgeType_prefix :=
       [Str "sourcecred"; Str "slack"; Str "AUTHORS"; Str "MESSAGE"];
     addsReactionEdgeType_prefix :=
       [Str "sourcecred"; Str "slack"; Str "ADDS_REACTION"];
     reactsToEdgeType_prefix :=
       [Str "sourcecred"; Str "slack"; Str "REACTS_TO"];
     mentionsEdgeType_prefix :=
       [Str "sourcecred"; Str "slack"; Str "MENTIONS"];
     messageRepliesEdgeType_prefix :=
       [Str "sourcecred"; Str "slack"; Str "REPLIES_TO"] |}.

Definition token : SlackToken := "EXAMPLE_TOKEN".

Definition config : WeightConfig :=
  {| channelWeights := {| defaultWeight := 1; weights := ∅ |};
     emojiWeights :=
       {| defaultWeight := 1; weights := {[ "thumbsup" := 2%float ]} |} |}.

Definition alice : User.t := User.mk "A" "alice" "alice@example.org".
Definition bob : User.t := User.mk "B" "bob" "bob@example.org".

Definition general : Channel.t := Channel.mk "C1" "general".

(** A message of channel C1; [starter] makes it the head of its thread. *)
Definition post (id author : string) (starter hasReactions hasMentions : bool)
    (mentions : list string) : Message.t :=
  {| Message.id := id;
     Message.channel := "C1";
     Message.authorId := author;
     Message.text := "hello <team> & welcome to the new channel";
     Message.isThread := starter;
     Message.inReplyTo := if starter then id else EmptyString;
     Message.hasReactions := hasReactions;
     Message.hasMentions := hasMentions;
     Message.mentions := mentions |}.

Definition M2 : Message.t := post "1600000060" "B" false false false [].
Definition M3 : Message.t := post "1600000120" "A" false false false [].

Definition thumbsupBy (reactor : string) : Reaction.t :=
  {| Reaction.reaction := "thumbsup"; Reaction.reactor := reactor |}.

(** A mirror with the channel C1, one message [M1] in it, the reactions
    on [M1] and the replies to it. *)
Definition mirror (members : list User.t) (M1 : Message.t)
    (reactions : list Reaction.t) (replies : list Message.t) : Repo.t :=
  {| Repo.members := members;
     Repo.channels := [general];
     Repo.messages := fun channelId =>
       if String.eqb channelId "C1" then [M1] else [];
     Repo.reactions := fun channelId messageId =>
       if String.eqb channelId "C1" && String.eqb messageId (Message.id M1)
       then reactions else [];
     Repo.thread := fun messageId =>
       if String.eqb messageId (Message.id M1)
       then map Message.id replies else [];
     Repo.message := fun messageId =>
       match find (fun m => String.eqb (Message.id m) messageId) (M1 :: replies) with
       | Some m => m
       | None => M1
       end |}.

Definition graphOf (repo : Repo.t) : WeightedGraphT :=
  createGraph (E := externs) token repo config.

(** Scenario 3 of the specification: [M1] by the known member A, with one
    thumbsup by the known member B. *)
Definition reacted : Message.t := post "1600000000" "A" false true false [].
Definition reactedMirror : Repo.t :=
  mirror [alice; bob] reacted [thumbsupBy "B"] [].

(** Scenario 4: a thread starter with two replies, no reaction and no
    mention. *)
Definition quietStarter : Message.t := post "1600000000" "A" true false false [].
Definition quietThread : Repo.t := mirror [alice; bob] quietStarter [] [M2; M3].

(** The same thread when the starter carries a reaction of a member the
    mirror does not know. *)
Definition flaggedStarter : Message.t := post "1600000000" "A" true true false [].
Definition flaggedThread : Repo.t :=
  mirror [alice; bob] flaggedStarter [thumbsupBy "GHOST"] [M2; M3].

(** A thread starter with no reply in the mirror and a reaction of an
    unknown member. *)
Definition lonelyThread : Repo.t :=
  mirror [alice; bob] flaggedStarter [thumbsupBy "GHOST"] [].

(** A thread starter by an unknown author, with a reaction of B. *)
Definition orphanStarter : Message.t := post "1600000000" "GHOST" true true false [].
Definition orphanThread : Repo.t :=
  mirror [alice; bob] orphanStarter [thumbsupBy "B"] [].

(** A plain message by an unknown author, with a reaction of B. *)
Definition orphan : Message.t := post "1600000000" "GHOST" false true false [].
Definition orphanMirror : Repo.t :=
  mirror [alice; bob] orphan [thumbsupBy "B"] [].

(** A message with reactions and mentions of known and unknown members. *)
Definition mixed : Message.t :=
  post "1600000000" "A" false true true ["B"; "GHOST"].
Definition mixedMirror : Repo.t :=
  mirror [alice; bob] mixed [thumbsupBy "GHOST"; thumbsupBy "B"] [].

(** A message whose id is not a number. *)
Definition unparsable : Message.t := post "not-a-number" "A" false true false [].

(** Stores: one stamped with the current version, one stamped by another
    version, and one where a table [members] exists without [meta]. *)
Definition stamped : Store.t :=
  {| Store.meta := Some [(0%Z, stringify_version VERSION)];
     Store.tables := list_to_set contentTables |}.
Definition foreign : Store.t :=
  {| Store.meta := Some [(0%Z, stringify_version "slack_mirror_v1")];
     Store.tables := list_to_set contentTables |}.
Definition halfBuilt : Store.t :=
  {| Store.meta := None; Store.tables := {[ "members" ]} |}.

End Sample.

(** ** Snapshots restricted to some channels or messages *)

(** The snapshot with another list of channels. *)
Definition withChannels (repo : Repo.t) (channels : list Channel.t) : Repo.t :=
  {| Repo.members := Repo.members repo;
     Repo.channels := channels;
     Repo.messages := Repo.messages repo;
     Repo.reactions := Repo.reactions repo;
     Repo.thread := Repo.thread repo;
     Repo.message := Repo.message repo |}.

(** The snapshot whose channels list only the messages that have one of the
    two flags. Only the lists of [repo.messages] change: a message taken off
    a list is still returned by [repo.thread] and [repo.message] when it is
    a reply. *)
Definition listingFlaggedOnly (repo : Repo.t) : Repo.t :=
  {| Repo.members := Repo.members repo;
     Repo.channels := Repo.channels repo;
     Repo.messages := fun channelId =>
       filter (fun message => passesGuard message = true)
         (Repo.messages repo channelId);
     Repo.reactions := Repo.reactions repo;
     Repo.thread := Repo.thread repo;
     Repo.message := Repo.message repo |}.

(** ** Where a Message node comes from *)

(** The node [n] is the Message node of a message that passed the guard and
    is a thread starter or materialised a reaction or a mention (and then
    has a known author and its AuthorsMessage edge), or it is the Message
    node of a reply of such a thread starter, next to its RepliesTo edge. *)
Definition messageNodeProvenance `{E : Externs} (token : SlackToken)
    (repo : Repo.t) (weights : WeightConfig) (n : Node.t) : Prop :=
  let memberMap := memberMapOf (Repo.members repo) in
  let wg := createGraph token repo weights in
  exists channel message,
    In channel (Repo.channels repo)
    /\ In message (Repo.messages repo (Channel.id channel))
    /\ passesGuard message = true
    /\ ((n = messageNode message (Channel.name channel)
         /\ (isThreadStarter message = true
             \/ (hasEdgesOf repo memberMap message = true
                 /\ exists author,
                     memberMap !! Message.authorId message = Some author
                     /\ In (authorsMessageEdge message author) (edges wg))))
        \/ (isThreadStarter message = true
            /\ exists replyId,
                In replyId (Repo.thread repo (Message.id message))
                /\ n = messageNode (Repo.message repo replyId)
                         (Channel.name channel)
                /\ In (repliesEdge message (Repo.message repo replyId))
                     (edges wg))).

(** * Properties *)

(** ** The loops of [createGraph] only append calls *)

Section LoopLemmas.

Context {E : Externs}.
Variable repo : Repo.t.
Variable weights : WeightConfig.
Variable memberMap : gmap string User.t.

Lemma knownReactor_Some reaction member :
  memberMap !! Reaction.reactor reaction = Some member ->
  knownReactor memberMap reaction = true.
Proof. intros H. apply bool_decide_eq_true_2. eauto. Qed.

Lemma knownReactor_None reaction :
  memberMap !! Reaction.reactor reaction = None ->
  knownReactor memberMap reaction = false.
Proof.
  intros H. apply bool_decide_eq_false_2. rewrite H. intros [? ?]. discriminate.
Qed.

Lemma knownMember_Some user member :
  memberMap !! user = Some member -> knownMember memberMap user = true.
Proof. intros H. apply bool_decide_eq_true_2. eauto. Qed.

Lemma knownMember_None user :
  memberMap !! user = None -> knownMember memberMap user = false.
Proof.
  intros H. apply bool_decide_eq_false_2. rewrite H. intros [? ?]. discriminate.
Qed.

Lemma reactionStep_calls message wg hasEdges reaction :
  reactionStep weights memberMap message (wg, hasEdges) reaction
  = ((wg ++ reactionCalls weights memberMap message reaction)%list,
     hasEdges || knownReactor memberMap reaction).
Proof.
  unfold reactionStep, reactionCalls.
  destruct (memberMap !! Reaction.reactor reaction) as [u|] eqn:Hu.
  - rewrite (knownReactor_Some _ _ Hu), orb_true_r.
    unfold addEdge, addNode, nodeWeights_set. simpl.
    rewrite <- !app_assoc. reflexivity.
  - rewrite (knownReactor_None _ Hu), orb_false_r, app_nil_r. reflexivity.
Qed.

Lemma reactionLoop_calls message reactions : forall wg hasEdges,
  foldl (reactionStep weights memberMap message) (wg, hasEdges) reactions
  = ((wg ++ flat_map (reactionCalls weights memberMap message) reactions)%list,
     hasEdges || existsb (knownReactor memberMap) reactions).
Proof.
  induction reactions as [|r rs IH]; intros wg hasEdges;
    cbn [foldl flat_map existsb].
  - rewrite app_nil_r, orb_false_r. reflexivity.
  - rewrite reactionStep_calls, IH, <- app_assoc, orb_assoc. reflexivity.
Qed.

Lemma mentionStep_calls message wg hasEdges user :
  mentionStep memberMap message (wg, hasEdges) user
  = ((wg ++ mentionCalls memberMap message user)%list,
     hasEdges || knownMember memberMap user).
Proof.
  unfold mentionStep, mentionCalls.
  destruct (memberMap !! user) as [u|] eqn:Hu.
  - rewrite (knownMember_Some _ _ Hu), orb_true_r.
    unfold addEdge, addNode. rewrite <- !app_assoc. reflexivity.
  - rewrite (knownMember_None _ Hu), orb_false_r, app_nil_r. reflexivity.
Qed.

Lemma mentionLoop_calls message users : forall wg hasEdges,
  foldl (mentionStep memberMap message) (wg, hasEdges) users
  = ((wg ++ flat_map (mentionCalls memberMap message) users)%list,
     hasEdges || existsb (knownMember memberMap) users).
Proof.
  induction users as [|u us IH]; intros wg hasEdges;
    cbn [foldl flat_map existsb].
  - rewrite app_nil_r, orb_false_r. reflexivity.
  - rewrite mentionStep_calls, IH, <- app_assoc, orb_assoc. reflexivity.
Qed.

Lemma replyLoop_calls channel message replies : forall wg,
  foldl (replyStep repo channel message) wg replies
  = (wg ++ flat_map (replyCalls repo channel message) replies)%list.
Proof.
  induction replies as [|r rs IH]; intros wg; cbn [foldl flat_map].
  - rewrite app_nil_r. reflexivity.
  - rewrite IH. unfold replyStep, addEdge, addNode.
    rewrite <- !app_assoc. reflexivity.
Qed.

Lemma messageStep_calls channel wg message :
  messageStep repo weights memberMap channel wg message
  = (wg ++ messageCalls repo weights memberMap channel message)%list.
Proof.
  unfold messageStep, messageCalls, passesGuard.
  destruct (Message.hasReactions message), (Message.hasMentions message);
    simpl; try (rewrite app_nil_r; reflexivity);
    rewrite reactionLoop_calls, mentionLoop_calls; simpl;
    fold (hasEdgesOf repo memberMap message);
    unfold threadCalls, authorCalls;
    destruct (isThreadStarter message);
    try rewrite replyLoop_calls; unfold addNode;
    destruct (hasEdgesOf repo memberMap message);
    try destruct (memberMap !! Message.authorId message);
    unfold addEdge, addNode; simpl;
    rewrite <- ?app_assoc; simpl; rewrite ?app_nil_r; reflexivity.
Qed.

Lemma messageLoop_calls channel messages : forall wg,
  foldl (messageStep repo weights memberMap channel) wg messages
  = (wg ++ flat_map (messageCalls repo weights memberMap channel) messages)%list.
Proof.
  induction messages as [|m ms IH]; intros wg; cbn [foldl flat_map].
  - rewrite app_nil_r. reflexivity.
  - rewrite messageStep_calls, IH, <- app_assoc. reflexivity.
Qed.

Lemma channelLoop_calls channels : forall wg,
  foldl (channelStep repo weights memberMap) wg channels
  = (wg ++ flat_map (channelCalls repo weights memberMap) channels)%list.
Proof.
  induction channels as [|c cs IH]; intros wg; cbn [foldl flat_map].
  - rewrite app_nil_r. reflexivity.
  - rewrite IH. unfold channelStep at 1.
    rewrite messageLoop_calls, <- app_assoc. reflexivity.
Qed.

End LoopLemmas.

Lemma createGraph_calls `{E : Externs} token repo weights :
  createGraph token repo weights
  = flat_map (channelCalls repo weights (memberMapOf (Repo.members repo)))
      (Repo.channels repo).
Proof. unfold createGraph. rewrite channelLoop_calls. reflexivity. Qed.

(** A call reaches the container exactly when some message of some channel
    makes it. *)
Lemma In_createGraph `{E : Externs} token repo weights call :
  In call (createGraph token repo weights) <->
  exists channel message,
    In channel (Repo.channels repo)
    /\ In message (Repo.messages repo (Channel.id channel))
    /\ In call (messageCalls repo weights (memberMapOf (Repo.members repo))
                  channel message).
Proof.
  rewrite createGraph_calls, in_flat_map. unfold channelCalls. split.
  - intros (c & Hc & Hin). apply in_flat_map in Hin as (m & Hm & Hin). eauto.
  - intros (c & m & Hc & Hm & Hin). exists c. split; [assumption|].
    apply in_flat_map. eauto.
Qed.

Lemma In_nodes wg n : In n (nodes wg) <-> In (AddNode n) wg.
Proof.
  unfold nodes. rewrite in_flat_map. split.
  - intros (c & Hc & Hin). destruct c; simpl in Hin; try tauto.
    destruct Hin as [->|[]]. assumption.
  - intros H. exists (AddNode n). split; [assumption | left; reflexivity].
Qed.

Lemma In_edges wg e : In e (edges wg) <-> In (AddEdge e) wg.
Proof.
  unfold edges. rewrite in_flat_map. split.
  - intros (c & Hc & Hin). destruct c; simpl in Hin; try tauto.
    destruct Hin as [->|[]]. assumption.
  - intros H. exists (AddEdge e). split; [assumption | left; reflexivity].
Qed.

Lemma In_nodeWeights wg a w : In (a, w) (nodeWeights wg) <-> In (SetNodeWeight a w) wg.
Proof.
  unfold nodeWeights. rewrite in_flat_map. split.
  - intros (c & Hc & Hin). destruct c; simpl in Hin; try tauto.
    destruct Hin as [Heq|[]]. inversion Heq; subst. assumption.
  - intros H. exists (SetNodeWeight a w). split; [assumption | left; reflexivity].
Qed.

(** The four parts of what one message contributes. *)
Lemma In_messageCalls `{E : Externs} repo weights memberMap channel message call :
  In call (messageCalls repo weights memberMap channel message) <->
  passesGuard message = true
  /\ ((exists reaction,
         In reaction (Repo.reactions repo (Message.channel message)
                        (Message.id message))
         /\ In call (reactionCalls weights memberMap message reaction))
      \/ (exists user,
            In user (Message.mentions message)
            /\ In call (mentionCalls memberMap message user))
      \/ In call (threadCalls repo channel message)
      \/ In call (authorCalls memberMap channel message
                    (hasEdgesOf repo memberMap message))).
Proof.
  unfold messageCalls. destruct (passesGuard message).
  - rewrite !in_app_iff, !in_flat_map. tauto.
  - simpl. split; [tauto | intros [? _]; discriminate].
Qed.

Lemma messageCalls_in_createGraph `{E : Externs} token repo weights channel message call :
  In channel (Repo.channels repo) ->
  In message (Repo.messages repo (Channel.id channel)) ->
  In call (messageCalls repo weights (memberMapOf (Repo.members repo))
             channel message) ->
  In call (createGraph token repo weights).
Proof. intros Hc Hm Hin. apply In_createGraph. eauto. Qed.

(** The calls of one message sit, in one piece, inside the output. *)
Lemma createGraph_around_message `{E : Externs} token repo weights channel message :
  In channel (Repo.channels repo) ->
  In message (Repo.messages repo (Channel.id channel)) ->
  exists before after,
    createGraph token repo weights
    = (before
       ++ messageCalls repo weights (memberMapOf (Repo.members repo))
            channel message
       ++ after)%list.
Proof.
  intros Hc Hm. rewrite createGraph_calls.
  set (memberMap := memberMapOf (Repo.members repo)).
  apply in_split in Hc as (cs1 & cs2 & ->).
  rewrite flat_map_app. cbn [flat_map]. unfold channelCalls at 2.
  apply in_split in Hm as (ms1 & ms2 & ->).
  rewrite flat_map_app. cbn [flat_map].
  exists (flat_map (channelCalls repo weights memberMap) cs1
          ++ flat_map (messageCalls repo weights memberMap channel) ms1)%list.
  exists (flat_map (messageCalls repo weights memberMap channel) ms2
          ++ flat_map (channelCalls repo weights memberMap) cs2)%list.
  rewrite <- !app_assoc. reflexivity.
Qed.

(** ** Thread starters *)




(** ** Which nodes are Message nodes *)

(** A Reaction node is never a Message node: the descriptions start with
    different characters. *)
Lemma reactionNode_neq_messageNode `{E : Externs} message reaction message' channelName :
  reactionNode message reaction <> messageNode message' channelName.
Proof.
  intros H. apply (f_equal Node.description) in H.
  cbn in H. discriminate H.
Qed.

(** A Member node is never a Message node: only the latter has a timestamp. *)
Lemma memberNode_neq_messageNode `{E : Externs} member message channelName :
  memberNode member <> messageNode message channelName.
Proof.
  intros H. apply (f_equal Node.timestampMs) in H.
  cbn in H. discriminate H.
Qed.

Lemma reactionCalls_no_messageNode `{E : Externs} weights memberMap message reaction
    message' channelName :
  ~ In (AddNode (messageNode message' channelName))
      (reactionCalls weights memberMap message reaction).
Proof.
  unfold reactionCalls.
  destruct (memberMap !! Reaction.reactor reaction) as [member|]; [|intros []].
  intros [H|[H|[H|[H|[H|[]]]]]]; try discriminate H;
    injection H as H;
    first [ exact (reactionNode_neq_messageNode _ _ _ _ H)
          | exact (memberNode_neq_messageNode _ _ _ H) ].
Qed.

Lemma mentionCalls_no_messageNode `{E : Externs} memberMap message user
    message' channelName :
  ~ In (AddNode (messageNode message' channelName))
      (mentionCalls memberMap message user).
Proof.
  unfold mentionCalls.
  destruct (memberMap !! user) as [member|]; [|intros []].
  intros [H|[H|[]]]; try discriminate H;
    injection H as H; exact (memberNode_neq_messageNode _ _ _ H).
Qed.

(** When no reaction and no mention is of a known member, the flag
    [hasEdges] stays false and neither loop hands anything over. *)
Lemma hasEdgesOf_false_no_calls `{E : Externs} repo weights memberMap message :
  hasEdgesOf repo memberMap message = false ->
  flat_map (reactionCalls weights memberMap message)
    (Repo.reactions repo (Message.channel message) (Message.id message)) = []
  /\ flat_map (mentionCalls memberMap message) (Message.mentions message) = [].
Proof.
  unfold hasEdgesOf. intros H. apply orb_false_elim in H as [Hr Hm]. split.
  - induction (Repo.reactions repo (Message.channel message) (Message.id message))
      as [|r rs IH]; [reflexivity|].
    cbn [existsb] in Hr. apply orb_false_elim in Hr as [Hr1 Hr2].
    cbn [flat_map]. rewrite (IH Hr2), app_nil_r.
    unfold reactionCalls, knownReactor in *.
    destruct (memberMap !! Reaction.reactor r); [|reflexivity].
    apply bool_decide_eq_false in Hr1. exfalso. apply Hr1. eauto.
  - induction (Message.mentions message) as [|u us IH]; [reflexivity|].
    cbn [existsb] in Hm. apply orb_false_elim in Hm as [Hm1 Hm2].
    cbn [flat_map]. rewrite (IH Hm2), app_nil_r.
    unfold mentionCalls, knownMember in *.
    destruct (memberMap !! u); [|reflexivity].
    apply bool_decide_eq_false in Hm1. exfalso. apply Hm1. eauto.
Qed.

(** Every node handed to the container is a Member node, a Reaction node or
    a Message node, and a Message node comes from the thread starter block
    or from the authorship block of a message that passed the guard. *)
Lemma createGraph_nodes `{E : Externs} token repo weights n :
  In n (nodes (createGraph token repo weights)) ->
  (exists member, n = memberNode member)
  \/ (exists message reaction, n = reactionNode message reaction)
  \/ messageNodeProvenance token repo weights n.
Proof.
  intros Hn. unfold messageNodeProvenance.
  set (memberMap := memberMapOf (Repo.members repo)). cbv zeta.
  apply In_nodes in Hn.
  apply In_createGraph in Hn as (channel & message & Hc & Hm & Hin).
  fold memberMap in Hin.
  assert (Hback : forall call,
             In call (messageCalls repo weights memberMap channel message) ->
             In call (createGraph token repo weights)).
  { intros call. apply messageCalls_in_createGraph; assumption. }
  pose proof Hin as Hin'.
  apply In_messageCalls in Hin as (Hguard & [Hin|[Hin|[Hin|Hin]]]).
  - destruct Hin as (reaction & _ & Hin). unfold reactionCalls in Hin.
    destruct (memberMap !! Reaction.reactor reaction) as [member|]; [|destruct Hin].
    destruct Hin as [H|[H|[H|[H|[H|[]]]]]]; try discriminate H;
      injection H as <-; [right; left|left]; eauto.
  - destruct Hin as (user & _ & Hin). unfold mentionCalls in Hin.
    destruct (memberMap !! user) as [member|]; [|destruct Hin].
    destruct Hin as [H|[H|[]]]; try discriminate H.
    injection H as <-. left. eauto.
  - right; right. exists channel, message. repeat (split; [assumption|]).
    pose proof Hin as Hthread.
    unfold threadCalls in Hin.
    destruct (isThreadStarter message) eqn:Hstart; [|destruct Hin].
    destruct Hin as [H|Hin].
    + injection H as <-. left. split; [reflexivity | left; reflexivity].
    + right. split; [reflexivity|].
      apply in_flat_map in Hin as (replyId & Hreply & Hin).
      destruct Hin as [H|[H|[]]]; try discriminate H.
      injection H as <-. exists replyId. repeat (split; [assumption || reflexivity|]).
      apply In_edges, Hback, In_messageCalls. split; [assumption|].
      right; right; left. unfold threadCalls. rewrite Hstart. right.
      apply in_flat_map. exists replyId. split; [assumption|].
      right; left; reflexivity.
  - unfold authorCalls in Hin.
    destruct (hasEdgesOf repo memberMap message) eqn:Hedges; [|destruct Hin].
    destruct (memberMap !! Message.authorId message) as [author|] eqn:Hauthor;
      [|destruct Hin].
    destruct Hin as [H|[H|[H|[]]]]; try discriminate H; injection H as <-.
    + left. eauto.
    + right; right. exists channel, message. repeat (split; [assumption|]).
      left. split; [reflexivity|]. right. split; [assumption|].
      exists author. split; [assumption|].
      apply In_edges, Hback, In_messageCalls. split; [assumption|].
      right; right; right. unfold authorCalls. rewrite Hedges, Hauthor.
      right; right; left; reflexivity.
Qed.

(** ** No isolated messages *)

(** Where the nodes of the graph come from: a message with no materialised
    reaction, no materialised mention and that is not a thread starter hands
    nothing to the container, and every node of the output is a Member node,
    a Reaction node, or a Message node with the provenance of
    [messageNodeProvenance]. *)
Theorem no_isolated_messages `{E : Externs} token repo weights :
  (forall channel message,
      hasEdgesOf repo (memberMapOf (Repo.members repo)) message = false ->
      isThreadStarter message = false ->
      messageCalls repo weights (memberMapOf (Repo.members repo))
        channel message = [])
  /\ (forall n,
        In n (nodes (createGraph token repo weights)) ->
        (exists member, n = memberNode member)
        \/ (exists message reaction, n = reactionNode message reaction)
        \/ messageNodeProvenance token repo weights n).
Proof.
  split.
  - intros channel message Hedges Hstart.
    unfold messageCalls. destruct (passesGuard message); [|reflexivity].
    destruct (hasEdgesOf_false_no_calls repo weights _ message Hedges)
      as [-> ->].
    unfold threadCalls, authorCalls. rewrite Hstart, Hedges. reflexivity.
  - intros n. apply createGraph_nodes.
Qed.

(** A message whose only reaction is of an unknown member adds nothing, and
    the Message node of scenario 3 has its provenance. *)
Lemma no_isolated_messages_witness :
  messageCalls (E := Sample.externs)
    (Sample.mirror [Sample.alice] Sample.reacted [Sample.thumbsupBy "B"] [])
    Sample.config (memberMapOf [Sample.alice]) Sample.general Sample.reacted
  = []
  /\ ((exists member,
          messageNode (E := Sample.externs) Sample.reacted "general"
          = memberNode (E := Sample.externs) member)
      \/ (exists message reaction,
            messageNode (E := Sample.externs) Sample.reacted "general"
            = reactionNode (E := Sample.externs) message reaction)
      \/ messageNodeProvenance (E := Sample.externs) Sample.token
           Sample.reactedMirror Sample.config
           (messageNode (E := Sample.externs) Sample.reacted "general")).
Proof.
  split.
  - apply (proj1 (no_isolated_messages (E := Sample.externs) Sample.token
                    (Sample.mirror [Sample.alice] Sample.reacted
                       [Sample.thumbsupBy "B"] [])
                    Sample.config)).
    + vm_compute. reflexivity.
    + vm_compute. reflexivity.
  - apply (proj2 (no_isolated_messages (E := Sample.externs) Sample.token
                    Sample.reactedMirror Sample.config)).
    vm_compute. do 3 right. left. reflexivity.
Defined.

(** C2 on a thread starter that passes the guard with a reaction of an
    unknown member, no mention and no reply in the mirror: it has no
    materialised reaction and no materialised mention and is not a thread
    starter with a reply, and yet the thread starter block hands over its
    Message node, the only node of a graph without any edge. The comment on
    the authorship block (no isolated messages in the graph) is not kept by
    the thread starter block, which adds the node before it looks at the
    replies. *)
Lemma lonely_starter_gets_a_node :
  let message := Sample.flaggedStarter in
  let repo := Sample.lonelyThread in
  let memberMap := memberMapOf (Repo.members repo) in
  In message (Repo.messages repo "C1")
  /\ existsb (knownReactor memberMap)
       (Repo.reactions repo (Message.channel message) (Message.id message))
     = false
  /\ existsb (knownMember memberMap) (Message.mentions message) = false
  /\ Repo.thread repo (Message.id message) = []
  /\ edges (Sample.graphOf repo) = []
  /\ nodes (Sample.graphOf repo)
     = [messageNode (E := Sample.externs) message "general"].
Proof.
  cbv zeta. split; [left; reflexivity|].
  repeat split; vm_compute; reflexivity.
Qed.

(** ** Authorship *)

(** C6, as the code has it: for a message that passed the guard and
    materialised a reaction or a mention, an author absent from the member
    map makes the authorship block add nothing (no Member node of the
    author, no Message node, no AuthorsMessage edge) while the calls of its
    reactions, mentions and thread stay; processing it adds a Message node
    only when it is a thread starter, and a Message node for it is in the
    graph only when a thread starter block hands it over (its own, or that
    of a listed thread starter that has it among its replies) or when the
    authorship block of a listed message with a known, hence other, author
    hands over the same node. A known author adds the author's Member node,
    the Message node and the AuthorsMessage edge, in this order, after
    them. *)
Theorem unknown_author_drops_authorship `{E : Externs} token repo weights channel message :
  let memberMap := memberMapOf (Repo.members repo) in
  let loops :=
    (flat_map (reactionCalls weights memberMap message)
       (Repo.reactions repo (Message.channel message) (Message.id message))
     ++ flat_map (mentionCalls memberMap message) (Message.mentions message)
     ++ threadCalls repo channel message)%list in
  In channel (Repo.channels repo) ->
  In message (Repo.messages repo (Channel.id channel)) ->
  passesGuard message = true ->
  hasEdgesOf repo memberMap message = true ->
  (exists before after,
      createGraph token repo weights
      = (before ++ messageCalls repo weights memberMap channel message
         ++ after)%list)
  /\ (memberMap !! Message.authorId message = None ->
        messageCalls repo weights memberMap channel message = loops
        /\ (isThreadStarter message = false ->
              forall message' channelName,
                ~ In (messageNode message' channelName)
                    (nodes (messageCalls repo weights memberMap channel message)))
        /\ (forall channelName,
              In (messageNode message channelName)
                (nodes (createGraph token repo weights)) ->
              exists channel' message',
                In channel' (Repo.channels repo)
                /\ In message' (Repo.messages repo (Channel.id channel'))
                /\ passesGuard message' = true
                /\ ((isThreadStarter message' = true
                     /\ (messageNode message channelName
                         = messageNode message' (Channel.name channel')
                         \/ exists replyId,
                             In replyId (Repo.thread repo (Message.id message'))
                             /\ messageNode message channelName
                                = messageNode (Repo.message repo replyId)
                                    (Channel.name channel')))
                    \/ (exists author,
                          memberMap !! Message.authorId message' = Some author
                          /\ Message.authorId message'
                             <> Message.authorId message
                          /\ hasEdgesOf repo memberMap message' = true
                          /\ messageNode message channelName
                             = messageNode message' (Channel.name channel')))))
  /\ (forall author,
        memberMap !! Message.authorId message = Some author ->
        messageCalls repo weights memberMap channel message
        = (loops
           ++ [AddNode (memberNode author);
               AddNode (messageNode message (Channel.name channel));
               AddEdge (authorsMessageEdge message author)])%list).
Proof.
  intros memberMap loops Hc Hm Hguard Hedges.
  split; [apply createGraph_around_message; assumption|].
  split.
  - intros Hauthor.
    assert (Heq : messageCalls repo weights memberMap channel message = loops).
    { unfold messageCalls, authorCalls, loops.
      rewrite Hguard, Hedges, Hauthor, app_nil_r. reflexivity. }
    split; [exact Heq|]. split.
    + intros Hstart message' channelName Hin.
      rewrite Heq in Hin. apply In_nodes in Hin. unfold loops in Hin.
      unfold threadCalls in Hin. rewrite Hstart, app_nil_r in Hin.
      apply in_app_or in Hin as [Hin|Hin];
        apply in_flat_map in Hin as (x & _ & Hin).
      * exact (reactionCalls_no_messageNode _ _ _ _ _ _ Hin).
      * exact (mentionCalls_no_messageNode _ _ _ _ _ Hin).
    + intros channelName Hin.
      apply createGraph_nodes in Hin as [(member & Hn)|[(m & r & Hn)|Hn]].
      * exfalso. symmetry in Hn.
        exact (memberNode_neq_messageNode _ _ _ Hn).
      * exfalso. symmetry in Hn.
        exact (reactionNode_neq_messageNode _ _ _ _ Hn).
      * destruct Hn as (channel' & message' & Hc' & Hm' & Hguard' & Hn).
        fold memberMap in Hn.
        exists channel', message'. repeat (split; [assumption|]).
        destruct Hn as [[Hn [Hstart|(Hedges' & author & Hauthor' & _)]]
                       |(Hstart & replyId & Hreply & Hn & _)].
        -- left. split; [exact Hstart|]. left. exact Hn.
        -- right. exists author. split; [exact Hauthor'|].
           split; [|split; [exact Hedges' | exact Hn]].
           intros Hsame. rewrite Hsame, Hauthor in Hauthor'.
           discriminate Hauthor'.
        -- left. split; [exact Hstart|]. right.
           exists replyId. split; [exact Hreply | exact Hn].
  - intros author Hauthor.
    unfold messageCalls, authorCalls, loops.
    rewrite Hguard, Hedges, Hauthor, <- !app_assoc. reflexivity.
Qed.

(** The plain message by an unknown author keeps the calls of its reaction
    and gets no Message node; the thread starter by an unknown author has a
    Message node, from its own thread starter block; the message of
    scenario 3 gets its three authorship calls. *)
Lemma unknown_author_drops_authorship_witness :
  messageCalls (E := Sample.externs) Sample.orphanMirror Sample.config
    (memberMapOf [Sample.alice; Sample.bob]) Sample.general Sample.orphan
  = reactionCalls (E := Sample.externs) Sample.config
      (memberMapOf [Sample.alice; Sample.bob]) Sample.orphan
      (Sample.thumbsupBy "B")
  /\ ~ In (messageNode (E := Sample.externs) Sample.orphan "general")
         (nodes (messageCalls (E := Sample.externs) Sample.orphanMirror
                   Sample.config (memberMapOf [Sample.alice; Sample.bob])
                   Sample.general Sample.orphan))
  /\ (exists channel' message',
        In channel' (Repo.channels Sample.orphanThread)
        /\ In message' (Repo.messages Sample.orphanThread (Channel.id channel'))
        /\ passesGuard message' = true
        /\ ((isThreadStarter message' = true
             /\ (messageNode (E := Sample.externs) Sample.orphanStarter "general"
                 = messageNode (E := Sample.externs) message'
                     (Channel.name channel')
                 \/ exists replyId,
                     In replyId (Repo.thread Sample.orphanThread
                                   (Message.id message'))
                     /\ messageNode (E := Sample.externs) Sample.orphanStarter
                          "general"
                        = messageNode (E := Sample.externs)
                            (Repo.message Sample.orphanThread replyId)
                            (Channel.name channel')))
            \/ (exists author,
                  memberMapOf (Repo.members Sample.orphanThread)
                    !! Message.authorId message' = Some author
                  /\ Message.authorId message'
                     <> Message.authorId Sample.orphanStarter
                  /\ hasEdgesOf Sample.orphanThread
                       (memberMapOf (Repo.members Sample.orphanThread))
                       message' = true
                  /\ messageNode (E := Sample.externs) Sample.orphanStarter
                       "general"
                     = messageNode (E := Sample.externs) message'
                         (Channel.name channel'))))
  /\ messageCalls (E := Sample.externs) Sample.reactedMirror Sample.config
       (memberMapOf [Sample.alice; Sample.bob]) Sample.general Sample.reacted
     = (reactionCalls (E := Sample.externs) Sample.config
          (memberMapOf [Sample.alice; Sample.bob]) Sample.reacted
          (Sample.thumbsupBy "B")
        ++ [AddNode (memberNode (E := Sample.externs) Sample.alice);
            AddNode (messageNode (E := Sample.externs) Sample.reacted "general");
            AddEdge (authorsMessageEdge (E := Sample.externs) Sample.reacted
                       Sample.alice)])%list.
Proof.
  destruct (unknown_author_drops_authorship (E := Sample.externs) Sample.token
              Sample.orphanMirror Sample.config Sample.general Sample.orphan)
    as (_ & Hunknown & _);
    [left; reflexivity | left; reflexivity | reflexivity
     | vm_compute; reflexivity |].
  destruct (Hunknown ltac:(vm_compute; reflexivity)) as (Hcalls & Hnone & _).
  destruct (unknown_author_drops_authorship (E := Sample.externs) Sample.token
              Sample.orphanThread Sample.config Sample.general
              Sample.orphanStarter)
    as (_ & Hstarter & _);
    [left; reflexivity | left; reflexivity | reflexivity
     | vm_compute; reflexivity |].
  destruct (Hstarter ltac:(vm_compute; reflexivity)) as (_ & _ & Horigin).
  destruct (unknown_author_drops_authorship (E := Sample.externs) Sample.token
              Sample.reactedMirror Sample.config Sample.general Sample.reacted)
    as (_ & _ & Hknown);
    [left; reflexivity | left; reflexivity | reflexivity
     | vm_compute; reflexivity |].
  split; [|split; [|split]].
  - etransitivity; [exact Hcalls | vm_compute; reflexivity].
  - apply (Hnone eq_refl).
  - apply (Horigin "general"). vm_compute. right; right; left. reflexivity.
  - etransitivity;
      [exact (Hknown Sample.alice ltac:(vm_compute; reflexivity))
      | vm_compute; reflexivity].
Defined.

(** C6 as stated fails: the thread starter by an unknown author, with a
    reaction of the known member B, still has its Message node. *)
Lemma orphan_starter_keeps_its_node :
  let message := Sample.orphanStarter in
  let repo := Sample.orphanThread in
  let memberMap := memberMapOf (Repo.members repo) in
  In message (Repo.messages repo "C1")
  /\ hasEdgesOf repo memberMap message = true
  /\ memberMap !! Message.authorId message = None
  /\ In (messageNode (E := Sample.externs) message "general")
       (nodes (Sample.graphOf repo)).
Proof.
  cbv zeta. split; [left; reflexivity|].
  split; [vm_compute; reflexivity|]. split; [vm_compute; reflexivity|].
  vm_compute. right; right; left. reflexivity.
Qed.

(** ** Referential tolerance *)

Lemma flat_map_filter_nil {A B} (P : A -> bool) (f : A -> list B) (l : list A) :
  (forall x, P x = false -> f x = []) ->
  flat_map f (filter (fun x => P x = true) l) = flat_map f l.
Proof.
  intros Hnil. induction l as [|x l IH]; [reflexivity|].
  rewrite filter_cons. cbn [flat_map]. destruct (decide (P x = true)) as [Hx|Hx].
  - cbn [flat_map]. rewrite IH. reflexivity.
  - rewrite IH, (Hnil x); [reflexivity|]. destruct (P x); congruence.
Qed.

(** What [createGraph] hands over for a reaction of a known member: the
    weight of the resolver, set at the address of the node, whose second
    component is the reaction record. *)
Lemma reactionCalls_known `{E : Externs} weights memberMap message reaction member :
  memberMap !! Reaction.reactor reaction = Some member ->
  reactionCalls weights memberMap message reaction
  = [SetNodeWeight
       (reactionNodeType_prefix
        ++ [Str (Message.channel message); Obj reaction;
            Str (Message.authorId message); Str (Message.id message)])%list
       (reactionWeight weights (Reaction.reaction reaction)
          (Reaction.reactor reaction) (Message.authorId message)
          (Message.channel message));
     AddNode (reactionNode message (Obj reaction));
     AddNode (memberNode member);
     AddEdge (reactsToEdge (Str (Reaction.reaction reaction)) message);
     AddEdge (addsReactionEdge (Str (Reaction.reaction reaction)) member message)].
Proof. intros H. unfold reactionCalls. rewrite H. reflexivity. Qed.

(** Every call of the graph builder with the place it was made at. *)
Lemma createGraph_call_origin `{E : Externs} token repo weights call :
  let memberMap := memberMapOf (Repo.members repo) in
  In call (createGraph token repo weights) ->
  exists channel message,
    In channel (Repo.channels repo)
    /\ In message (Repo.messages repo (Channel.id channel))
    /\ passesGuard message = true
    /\ ((exists reaction member,
            In reaction (Repo.reactions repo (Message.channel message)
                           (Message.id message))
            /\ memberMap !! Reaction.reactor reaction = Some member
            /\ In call (reactionCalls weights memberMap message reaction))
        \/ (exists user member,
              In user (Message.mentions message)
              /\ memberMap !! user = Some member
              /\ In call (mentionCalls memberMap message user))
        \/ In call (threadCalls repo channel message)
        \/ In call (authorCalls memberMap channel message
                      (hasEdgesOf repo memberMap message))).
Proof.
  intros memberMap H.
  apply In_createGraph in H as (channel & message & Hc & Hm & H).
  fold memberMap in H.
  apply In_messageCalls in H as (Hguard & H).
  exists channel, message. repeat (split; [assumption|]).
  destruct H as [(reaction & Hr & H)|[(user & Hu & H)|H]].
  - left. unfold reactionCalls in H |- *.
    destruct (memberMap !! Reaction.reactor reaction) as [member|] eqn:Hmember;
      [|destruct H].
    exists reaction, member. rewrite Hmember. auto.
  - right; left. unfold mentionCalls in H |- *.
    destruct (memberMap !! user) as [member|] eqn:Hmember; [|destruct H].
    exists user, member. rewrite Hmember. auto.
  - right; right. exact H.
Qed.

(** C5: a reaction whose reactor, and a mention whose member, is absent from
    the member map leaves the state of its loop as it is (the value is
    returned, nothing is thrown). Whatever else the message refers to, every
    reaction of a known member on a message that passed the guard has its
    Reaction node, its weight, the Member node of the reactor and its two
    edges in the output, every mention of a known member has the Member node
    and the Mentions edge in the output, and the calls of the thread starter
    block and of the authorship block are in the output. Nothing else is:
    every call of the output is one of these, so only the reactions and
    mentions of unknown members are omitted. *)
Theorem referential_tolerance `{E : Externs} token repo weights :
  let memberMap := memberMapOf (Repo.members repo) in
  let wg := createGraph token repo weights in
  (forall message st reaction,
      memberMap !! Reaction.reactor reaction = None ->
      reactionStep weights memberMap message st reaction = st)
  /\ (forall message st user,
        memberMap !! user = None ->
        mentionStep memberMap message st user = st)
  /\ (forall channel message,
        In channel (Repo.channels repo) ->
        In message (Repo.messages repo (Channel.id channel)) ->
        passesGuard message = true ->
        (forall reaction member,
            In reaction (Repo.reactions repo (Message.channel message)
                           (Message.id message)) ->
            memberMap !! Reaction.reactor reaction = Some member ->
            In (reactionNode message (Obj reaction)) (nodes wg)
            /\ In (memberNode member) (nodes wg)
            /\ In (reactsToEdge (Str (Reaction.reaction reaction)) message)
                 (edges wg)
            /\ In (addsReactionEdge (Str (Reaction.reaction reaction)) member
                     message) (edges wg)
            /\ In (Node.address (reactionNode message (Obj reaction)),
                   reactionWeight weights (Reaction.reaction reaction)
                     (Reaction.reactor reaction) (Message.authorId message)
                     (Message.channel message))
                 (nodeWeights wg))
        /\ (forall user member,
              In user (Message.mentions message) ->
              memberMap !! user = Some member ->
              In (memberNode member) (nodes wg)
              /\ In (mentionsEdge message member) (edges wg))
        /\ (forall call,
              In call (threadCalls repo channel message) -> In call wg)
        /\ (forall call,
              In call (authorCalls memberMap channel message
                         (hasEdgesOf repo memberMap message)) ->
              In call wg))
  /\ (forall call,
        In call wg ->
        exists channel message,
          In channel (Repo.channels repo)
          /\ In message (Repo.messages repo (Channel.id channel))
          /\ passesGuard message = true
          /\ ((exists reaction member,
                  In reaction (Repo.reactions repo (Message.channel message)
                                 (Message.id message))
                  /\ memberMap !! Reaction.reactor reaction = Some member
                  /\ In call
                       [SetNodeWeight
                          (Node.address (reactionNode message (Obj reaction)))
                          (reactionWeight weights (Reaction.reaction reaction)
                             (Reaction.reactor reaction)
                             (Message.authorId message)
                             (Message.channel message));
                        AddNode (reactionNode message (Obj reaction));
                        AddNode (memberNode member);
                        AddEdge (reactsToEdge (Str (Reaction.reaction reaction))
                                   message);
                        AddEdge (addsReactionEdge
                                   (Str (Reaction.reaction reaction)) member
                                   message)])
              \/ (exists user member,
                    In user (Message.mentions message)
                    /\ memberMap !! user = Some member
                    /\ In call [AddNode (memberNode member);
                                AddEdge (mentionsEdge message member)])
              \/ In call (threadCalls repo channel message)
              \/ In call (authorCalls memberMap channel message
                            (hasEdgesOf repo memberMap message)))).
Proof.
  intros memberMap wg. split; [|split; [|split]].
  - intros message [wg0 hasEdges] reaction H. unfold reactionStep.
    rewrite H. reflexivity.
  - intros message [wg0 hasEdges] user H. unfold mentionStep.
    rewrite H. reflexivity.
  - intros channel message Hc Hm Hguard.
    assert (Hback : forall call,
               In call (messageCalls repo weights memberMap channel message) ->
               In call wg).
    { intros call. apply messageCalls_in_createGraph; assumption. }
    split; [|split; [|split]].
    + intros reaction member Hreaction Hmember.
      assert (Hturn : forall call,
                 In call (reactionCalls weights memberMap message reaction) ->
                 In call wg).
      { intros call Hin. apply Hback, In_messageCalls.
        split; [assumption|]. left. exists reaction. split; assumption. }
      rewrite (reactionCalls_known _ _ _ _ _ Hmember) in Hturn.
      split; [|split; [|split; [|split]]].
      * apply In_nodes, Hturn. right; left; reflexivity.
      * apply In_nodes, Hturn. right; right; left; reflexivity.
      * apply In_edges, Hturn. do 3 right. left. reflexivity.
      * apply In_edges, Hturn. do 4 right. left. reflexivity.
      * apply In_nodeWeights, Hturn. left. reflexivity.
    + intros user member Huser Hmember.
      assert (Hturn : forall call,
                 In call [AddNode (memberNode member);
                          AddEdge (mentionsEdge message member)] ->
                 In call wg).
      { intros call Hin. apply Hback, In_messageCalls.
        split; [assumption|]. right; left. exists user. split; [assumption|].
        unfold mentionCalls. rewrite Hmember. exact Hin. }
      split.
      * apply In_nodes, Hturn. left; reflexivity.
      * apply In_edges, Hturn. right; left; reflexivity.
    + intros call Hin. apply Hback, In_messageCalls.
      split; [assumption|]. right; right; left. exact Hin.
    + intros call Hin. apply Hback, In_messageCalls.
      split; [assumption|]. right; right; right. exact Hin.
  - intros call Hin.
    apply createGraph_call_origin in Hin
      as (channel & message & Hc & Hm & Hguard & H).
    exists channel, message. repeat (split; [assumption|]).
    destruct H as [(reaction & member & Hr & Hmember & H)
                  |[(user & member & Hu & Hmember & H)|H]].
    + left. exists reaction, member. repeat (split; [assumption|]).
      rewrite (reactionCalls_known _ _ _ _ _ Hmember) in H. exact H.
    + right; left. exists user, member. repeat (split; [assumption|]).
      unfold mentionCalls in H. rewrite Hmember in H. exact H.
    + right; right. exact H.
Qed.

(** The mixed sample: the reaction and the mention of GHOST change neither
    loop state, the reaction and the mention of B are in the graph, and the
    Reaction node of the graph comes from the reaction of B. *)
Lemma referential_tolerance_witness :
  reactionStep (E := Sample.externs) Sample.config
    (memberMapOf [Sample.alice; Sample.bob]) Sample.mixed ([], false)
    (Sample.thumbsupBy "GHOST")
  = ([], false)
  /\ mentionStep (E := Sample.externs)
       (memberMapOf [Sample.alice; Sample.bob]) Sample.mixed ([], false) "GHOST"
     = ([], false)
  /\ In (reactionNode (E := Sample.externs) Sample.mixed
           (Obj (Sample.thumbsupBy "B")))
       (nodes (Sample.graphOf Sample.mixedMirror))
  /\ In (addsReactionEdge (E := Sample.externs) (Str "thumbsup") Sample.bob
           Sample.mixed)
       (edges (Sample.graphOf Sample.mixedMirror))
  /\ In (mentionsEdge (E := Sample.externs) Sample.mixed Sample.bob)
       (edges (Sample.graphOf Sample.mixedMirror))
  /\ In (AddEdge (authorsMessageEdge (E := Sample.externs) Sample.mixed
                    Sample.alice))
       (Sample.graphOf Sample.mixedMirror).
Proof.
  destruct (referential_tolerance (E := Sample.externs) Sample.token
              Sample.mixedMirror Sample.config) as (Hr & Hm & Hkept & _).
  destruct (Hkept Sample.general Sample.mixed)
    as (Hreactions & Hmentions & _ & Hauthor);
    [left; reflexivity | left; reflexivity | reflexivity |].
  destruct (Hreactions (Sample.thumbsupBy "B") Sample.bob)
    as (Hnode & _ & _ & Hadds & _);
    [right; left; reflexivity | vm_compute; reflexivity |].
  destruct (Hmentions "B" Sample.bob) as [_ Hmention];
    [left; reflexivity | vm_compute; reflexivity |].
  split; [|split; [|split; [|split; [|split]]]].
  - apply (Hr Sample.mixed ([], false) (Sample.thumbsupBy "GHOST")).
    vm_compute. reflexivity.
  - apply (Hm Sample.mixed ([], false) "GHOST"). vm_compute. reflexivity.
  - exact Hnode.
  - exact Hadds.
  - exact Hmention.
  - apply Hauthor. vm_compute. right; right; left. reflexivity.
Defined.

(** ** Timestamps *)

(** Every edge made while a message is processed carries the timestamp of
    that message. *)
Lemma messageCalls_edge_timestamp `{E : Externs} repo weights memberMap channel message e :
  In (AddEdge e) (messageCalls repo weights memberMap channel message) ->
  Edge.timestampMs e = (parseFloat (Message.id message) * 1000)%float.
Proof.
  intros Hin. apply In_messageCalls in Hin as (_ & [Hin|[Hin|[Hin|Hin]]]).
  - destruct Hin as (reaction & _ & Hin). unfold reactionCalls in Hin.
    destruct (memberMap !! Reaction.reactor reaction); [|destruct Hin].
    destruct Hin as [H|[H|[H|[H|[H|[]]]]]]; try discriminate H;
      injection H as <-; reflexivity.
  - destruct Hin as (user & _ & Hin). unfold mentionCalls in Hin.
    destruct (memberMap !! user); [|destruct Hin].
    destruct Hin as [H|[H|[]]]; try discriminate H.
    injection H as <-. reflexivity.
  - unfold threadCalls in Hin.
    destruct (isThreadStarter message); [|destruct Hin].
    destruct Hin as [H|Hin]; [discriminate H|].
    apply in_flat_map in Hin as (replyId & _ & Hin).
    destruct Hin as [H|[H|[]]]; try discriminate H.
    injection H as <-. reflexivity.
  - unfold authorCalls in Hin.
    destruct (hasEdgesOf repo memberMap message); [|destruct Hin].
    destruct (memberMap !! Message.authorId message); [|destruct Hin].
    destruct Hin as [H|[H|[H|[]]]]; try discriminate H.
    injection H as <-. reflexivity.
Qed.

(** C7: the Message node, the Reaction node and the five kinds of edge built
    from a message carry [parseFloat(message.id) * 1000]; so does every edge
    of the graph, for the message it was made for, and every node of the
    graph that has a timestamp, for some message; when the id does not parse
    the records are built all the same, with NaN as their timestamp. *)
Theorem timestamps_from_message_id `{E : Externs} token repo weights :
  (forall message channelName reaction author member reply,
      Node.timestampMs (messageNode message channelName)
      = Some (parseFloat (Message.id message) * 1000)%float
      /\ Node.timestampMs (reactionNode message reaction)
         = Some (parseFloat (Message.id message) * 1000)%float
      /\ Edge.timestampMs (authorsMessageEdge message author)
         = (parseFloat (Message.id message) * 1000)%float
      /\ Edge.timestampMs (addsReactionEdge reaction member message)
         = (parseFloat (Message.id message) * 1000)%float
      /\ Edge.timestampMs (reactsToEdge reaction message)
         = (parseFloat (Message.id message) * 1000)%float
      /\ Edge.timestampMs (mentionsEdge message member)
         = (parseFloat (Message.id message) * 1000)%float
      /\ Edge.timestampMs (repliesEdge message reply)
         = (parseFloat (Message.id message) * 1000)%float)
  /\ (forall e,
        In e (edges (createGraph token repo weights)) ->
        exists channel message,
          In channel (Repo.channels repo)
          /\ In message (Repo.messages repo (Channel.id channel))
          /\ Edge.timestampMs e = (parseFloat (Message.id message) * 1000)%float)
  /\ (forall n,
        In n (nodes (createGraph token repo weights)) ->
        Node.timestampMs n = None
        \/ exists message,
            Node.timestampMs n
            = Some (parseFloat (Message.id message) * 1000)%float)
  /\ (forall message channelName reaction author member reply,
        parseFloat (Message.id message) = nan ->
        Node.timestampMs (messageNode message channelName) = Some nan
        /\ Node.timestampMs (reactionNode message reaction) = Some nan
        /\ Edge.timestampMs (authorsMessageEdge message author) = nan
        /\ Edge.timestampMs (addsReactionEdge reaction member message) = nan
        /\ Edge.timestampMs (reactsToEdge reaction message) = nan
        /\ Edge.timestampMs (mentionsEdge message member) = nan
        /\ Edge.timestampMs (repliesEdge message reply) = nan).
Proof.
  split; [|split; [|split]].
  - intros. repeat split.
  - intros e He. apply In_edges, In_createGraph in He
      as (channel & message & Hc & Hm & Hin).
    exists channel, message. repeat (split; [assumption|]).
    exact (messageCalls_edge_timestamp _ _ _ _ _ _ Hin).
  - intros n Hn. apply createGraph_nodes in Hn
      as [(member & ->)|[(message & reaction & ->)|Hn]].
    + left. reflexivity.
    + right. exists message. reflexivity.
    + destruct Hn as (channel & message & _ & _ & _ & [[-> _]|(_ & replyId & _ & -> & _)]).
      * right. exists message. reflexivity.
      * right. exists (Repo.message repo replyId). reflexivity.
  - intros message channelName reaction author member reply Hnan.
    cbn. rewrite Hnan. repeat split.
Qed.

(** The records of the sample message whose id is not a number. *)
Lemma timestamps_from_message_id_witness :
  Node.timestampMs (messageNode (E := Sample.externs) Sample.unparsable "general")
  = Some nan
  /\ Edge.timestampMs (authorsMessageEdge (E := Sample.externs)
                         Sample.unparsable Sample.alice) = nan
  /\ exists channel message,
      In channel (Repo.channels Sample.reactedMirror)
      /\ In message (Repo.messages Sample.reactedMirror (Channel.id channel))
      /\ Edge.timestampMs (reactsToEdge (E := Sample.externs) (Str "thumbsup")
                             Sample.reacted)
         = (parseFloat (Externs := Sample.externs) (Message.id message) * 1000)%float.
Proof.
  destruct (timestamps_from_message_id (E := Sample.externs) Sample.token
              Sample.reactedMirror Sample.config) as (_ & Hedges & _ & Hnan).
  destruct (Hnan Sample.unparsable "general" (Str "thumbsup") Sample.alice
              Sample.bob Sample.M2 eq_refl) as (Hnode & _ & Hauthor & _).
  split; [exact Hnode|]. split; [exact Hauthor|].
  apply Hedges. vm_compute. left. reflexivity.
Defined.

(** ** Descriptions *)

Lemma substring_0_length n : forall s, String.length (substring 0 n s) <= n.
Proof.
  induction n as [|n IH]; intros [|c s]; cbn; try lia.
  specialize (IH s). lia.
Qed.

Lemma substring_0_prefix n : forall s,
  exists rest, s = substring 0 n s +:+ rest.
Proof.
  induction n as [|n IH]; intros [|c s]; cbn.
  - exists EmptyString. reflexivity.
  - exists (String c s). reflexivity.
  - exists EmptyString. reflexivity.
  - destruct (IH s) as [rest Hrest]. exists rest.
    change (String c s = String c (substring 0 n s +:+ rest)).
    rewrite <- Hrest. reflexivity.
Qed.

Lemma substring_0_short n : forall s,
  String.length s <= n -> substring 0 n s = s.
Proof.
  induction n as [|n IH]; intros [|c s] Hlen; cbn in *; try reflexivity; try lia.
  rewrite IH by lia. reflexivity.
Qed.

(** C8: the description of a Message node is the channel name, then the
    first [MESSAGE_LENGTH] = 30 characters of the body (the whole body when
    it is shorter) passed through [escape], then the ellipsis: the body is
    cut before it is escaped, and what is embedded is the escaped text. *)
Theorem message_description `{E : Externs} message channelName :
  MESSAGE_LENGTH = 30
  /\ Node.description (messageNode message channelName)
     = "#" +:+ channelName +:+ " message [" +:+ dquote
       +:+ escape (substring 0 30 (Message.text message))
       +:+ "..." +:+ dquote +:+ "]"
  /\ String.length (substring 0 30 (Message.text message)) <= 30
  /\ (exists rest,
        Message.text message = substring 0 30 (Message.text message) +:+ rest)
  /\ (String.length (Message.text message) <= 30 ->
      substring 0 30 (Message.text message) = Message.text message).
Proof.
  split; [reflexivity|]. split; [reflexivity|].
  split; [apply substring_0_length|].
  split; [apply substring_0_prefix | apply substring_0_short].
Qed.

(** A body of five characters is embedded whole. *)
Lemma message_description_witness :
  substring 0 30 "hello" = "hello".
Proof.
  apply (proj2 (proj2 (proj2 (proj2
    (message_description (E := Sample.externs)
       (Message.mk "1600000000" "C1" "A" "hello" false EmptyString
          false false [])
       "general"))))).
  cbn. lia.
Defined.

(** ** Reaction nodes *)

(** The address built from a reaction record is not the address built from
    its name. *)
Lemma record_address_neq_name_address `{E : Externs} message reaction :
  reactionAddress (Obj reaction) message
  <> reactionAddress (Str (Reaction.reaction reaction)) message.
Proof.
  unfold reactionAddress, NodeAddress.append. intros H.
  apply app_inv_head in H. discriminate H.
Qed.

(** C9 on scenario 3 (message 1600000000 of channel C1 by A, one thumbsup
    by B): the weight is the resolver's for (thumbsup, B, A, C1), but the
    Reaction node is built from the reaction record, so the second component
    of its address is the record and not the name thumbsup, while both
    reaction edges point at the address built from the name. *)
Lemma reaction_node_address_holds_the_record :
  let message := Sample.reacted in
  let reaction := Sample.thumbsupBy "B" in
  let wg := Sample.graphOf Sample.reactedMirror in
  let byName :=
    (reactionNodeType_prefix (Externs := Sample.externs)
     ++ [Str "C1"; Str "thumbsup"; Str "A"; Str "1600000000"])%list in
  let byRecord :=
    (reactionNodeType_prefix (Externs := Sample.externs)
     ++ [Str "C1"; Obj reaction; Str "A"; Str "1600000000"])%list in
  nodes wg
  = [reactionNode (E := Sample.externs) message (Obj reaction);
     memberNode (E := Sample.externs) Sample.bob;
     memberNode (E := Sample.externs) Sample.alice;
     messageNode (E := Sample.externs) message "general"]
  /\ Node.address (reactionNode (E := Sample.externs) message (Obj reaction))
     = byRecord
  /\ byRecord <> byName
  /\ ~ In byName (map Node.address (nodes wg))
  /\ edges wg
     = [reactsToEdge (E := Sample.externs) (Str "thumbsup") message;
        addsReactionEdge (E := Sample.externs) (Str "thumbsup") Sample.bob message;
        authorsMessageEdge (E := Sample.externs) message Sample.alice]
  /\ Edge.src (reactsToEdge (E := Sample.externs) (Str "thumbsup") message)
     = byName
  /\ Edge.dst (addsReactionEdge (E := Sample.externs) (Str "thumbsup")
                 Sample.bob message)
     = byName
  /\ nodeWeights wg
     = [(byRecord,
         reactionWeight (Externs := Sample.externs) Sample.config
           "thumbsup" "B" "A" "C1")].
Proof.
  cbv zeta.
  split; [vm_compute; reflexivity|]. split; [reflexivity|].
  split; [intros H; discriminate H|].
  split; [vm_compute; intros [H|[H|[H|[H|[]]]]]; discriminate H|].
  split; [vm_compute; reflexivity|]. split; [reflexivity|].
  split; [reflexivity | vm_compute; reflexivity].
Qed.

(** ** Member nodes *)

(** C10: a Member node has no timestamp, and every node handed to the
    container is either a Member node, without timestamp, or a Reaction or
    Message node with the timestamp of a message. *)
Theorem member_nodes_have_no_timestamp `{E : Externs} token repo weights :
  (forall member, Node.timestampMs (memberNode member) = None)
  /\ (forall n,
        In n (nodes (createGraph token repo weights)) ->
        (exists member, n = memberNode member /\ Node.timestampMs n = None)
        \/ (exists message,
              Node.timestampMs n
              = Some (parseFloat (Message.id message) * 1000)%float
              /\ ((exists reaction, n = reactionNode message reaction)
                  \/ (exists channelName, n = messageNode message channelName)))).
Proof.
  split; [reflexivity|].
  intros n Hn. apply createGraph_nodes in Hn
    as [(member & ->)|[(message & reaction & ->)|Hn]].
  - left. exists member. split; reflexivity.
  - right. exists message. split; [reflexivity|]. left. eauto.
  - destruct Hn as (channel & message & _ & _ & _
                    & [[-> _]|(_ & replyId & _ & -> & _)]).
    + right. exists message. split; [reflexivity|]. right. eauto.
    + right. exists (Repo.message repo replyId).
      split; [reflexivity|]. right. eauto.
Qed.

(** The Member node of B, the reactor of scenario 3. *)
Lemma member_nodes_have_no_timestamp_witness :
  (exists member,
      memberNode (E := Sample.externs) Sample.bob
      = memberNode (E := Sample.externs) member
      /\ Node.timestampMs (memberNode (E := Sample.externs) Sample.bob) = None)
  \/ (exists message,
        Node.timestampMs (memberNode (E := Sample.externs) Sample.bob)
        = Some (parseFloat (Externs := Sample.externs) (Message.id message)
                * 1000)%float
        /\ ((exists reaction,
                memberNode (E := Sample.externs) Sample.bob
                = reactionNode (E := Sample.externs) message reaction)
            \/ (exists channelName,
                  memberNode (E := Sample.externs) Sample.bob
                  = messageNode (E := Sample.externs) message channelName))).
Proof.
  apply (proj2 (member_nodes_have_no_timestamp (E := Sample.externs)
                  Sample.token Sample.reactedMirror Sample.config)).
  vm_compute. right. left. reflexivity.
Defined.

(** ** The mirror store: transactions *)

Lemma inTransaction_false_connect db :
  Database.inTransaction db = false ->
  db = Database.connect (Database.committed db).
Proof.
  destruct db as [committed [working|]]; cbn; intros H;
    [discriminate H | reflexivity].
Qed.

Lemma txLocal_ret {A} (a : A) : txLocal (ret a).
Proof. intros db H. split; [exact H | reflexivity]. Qed.

Lemma txLocal_throw {A} message : txLocal (@throw A message).
Proof. intros db H. split; [exact H | reflexivity]. Qed.

Lemma txLocal_bind {A B} (c : M A) (k : A -> M B) :
  txLocal c -> (forall a, txLocal (k a)) -> txLocal (bind c k).
Proof.
  intros Hc Hk db H. unfold bind.
  destruct (Hc db H) as [Hin Hcommitted].
  destruct (c db) as [[a|message] db1]; cbn in *.
  - destruct (Hk a db1 Hin) as [Hin' Hcommitted'].
    split; [exact Hin' | congruence].
  - split; assumption.
Qed.

Lemma txLocal_write (f : Store.t -> Store.t) db :
  Database.inTransaction db = true ->
  Database.inTransaction (Database.write f db) = true
  /\ Database.committed (Database.write f db) = Database.committed db.
Proof.
  destruct db as [committed [working|]]; cbn; intros H;
    [split; reflexivity | discriminate H].
Qed.

Lemma txLocal_createMetaIfNotExists : txLocal Sql.createMetaIfNotExists.
Proof. intros db H. apply txLocal_write. exact H. Qed.

Lemma txLocal_selectConfig : txLocal Sql.selectConfig.
Proof.
  intros db H. unfold Sql.selectConfig.
  destruct (Store.meta (Database.current db)) as [[|[zero config] rows]|];
    split; solve [exact H | reflexivity].
Qed.

Lemma txLocal_insertMeta config : txLocal (Sql.insertMeta config).
Proof.
  intros db H. unfold Sql.insertMeta.
  destruct (Store.meta (Database.current db)) as [rows|];
    [|split; solve [exact H | reflexivity]].
  destruct (existsb _ rows); [split; solve [exact H | reflexivity]|].
  apply txLocal_write. exact H.
Qed.

Lemma txLocal_createTable name : txLocal (Sql.createTable name).
Proof.
  intros db H. unfold Sql.createTable.
  destruct (bool_decide _); [split; solve [exact H | reflexivity]|].
  apply txLocal_write. exact H.
Qed.

Lemma txLocal_forEach {A} (f : A -> M unit) (l : list A) :
  (forall x, txLocal (f x)) -> txLocal (forEach f l).
Proof.
  intros Hf. induction l as [|x l IH]; cbn [forEach].
  - apply txLocal_ret.
  - apply txLocal_bind; [apply Hf | intros _; exact IH].
Qed.

Lemma txLocal_initialize token : txLocal (_initialize token).
Proof.
  unfold _initialize.
  apply txLocal_bind; [apply txLocal_createMetaIfNotExists | intros _].
  apply txLocal_bind; [apply txLocal_selectConfig | intros [existing|]].
  - destruct (String.eqb existing _); [apply txLocal_ret | apply txLocal_throw].
  - apply txLocal_bind; [apply txLocal_insertMeta | intros _].
    apply txLocal_forEach. apply txLocal_createTable.
Qed.

(** The guard around a body that works inside its transaction: the body
    runs on the opened handle; its writes are committed when it returns and
    undone when it throws. *)
Lemma _transaction_run (queries : M unit) (store : Store.t) :
  txLocal queries ->
  _transaction queries (Database.connect store)
  = match queries {| Database.committed := store;
                     Database.working := Some store |} with
    | (Return _, db1) => (Return tt, Database.connect (Database.current db1))
    | (Throw message, _) => (Throw message, Database.connect store)
    end.
Proof.
  intros Hlocal. unfold _transaction, tryFinally, bind, Sql.BEGIN. cbn.
  destruct (Hlocal {| Database.committed := store;
                      Database.working := Some store |} eq_refl)
    as [Hin Hcommitted].
  destruct (queries _) as [[[]|message] [committed working]]; cbn in *;
    destruct working as [s|]; try discriminate Hin; cbn; subst;
    reflexivity.
Qed.

(** The guard around any body that leaves its transaction open: a return
    is followed by COMMIT, a throw by ROLLBACK, and the exception goes on. *)
Lemma _transaction_open (queries : M unit) db r db1 :
  Database.inTransaction db = false ->
  queries {| Database.committed := Database.committed db;
             Database.working := Some (Database.committed db) |}
  = (r, db1) ->
  Database.inTransaction db1 = true ->
  _transaction queries db
  = match r with
    | Return _ => (Return tt, Database.connect (Database.current db1))
    | Throw message => (Throw message, Database.connect (Database.committed db1))
    end.
Proof.
  intros Hout Hq Hin. unfold _transaction. rewrite Hout.
  unfold tryFinally, bind, Sql.BEGIN. rewrite Hout, Hq.
  destruct db1 as [committed [working|]]; [|discriminate Hin].
  destruct r as [[]|message]; reflexivity.
Qed.

(** C4: the guard throws, without running the body, when a transaction is
    open; otherwise it opens one and runs the body, commits what the body
    wrote when it returns and rolls back when it throws, passing the
    exception on (the body having left the transaction open); after a body
    that works inside its transaction and throws, the handle is as it was
    before the call; the initialisation is such a body, so a constructor
    that throws leaves the store exactly as it found it. *)
Theorem transaction_guard :
  (forall queries db,
      Database.inTransaction db = true ->
      _transaction queries db = (Throw "already in transaction", db))
  /\ (forall queries db,
        Database.inTransaction db = false ->
        let opened :=
          {| Database.committed := Database.committed db;
             Database.working := Some (Database.committed db) |} in
        (forall db1,
            queries opened = (Return tt, db1) ->
            Database.inTransaction db1 = true ->
            _transaction queries db
            = (Return tt, Database.connect (Database.current db1)))
        /\ (forall message db1,
              queries opened = (Throw message, db1) ->
              Database.inTransaction db1 = true ->
              _transaction queries db
              = (Throw message, Database.connect (Database.committed db1))))
  /\ (forall queries db message db1,
        Database.inTransaction db = false ->
        txLocal queries ->
        queries {| Database.committed := Database.committed db;
                   Database.working := Some (Database.committed db) |}
        = (Throw message, db1) ->
        _transaction queries db = (Throw message, db))
  /\ (forall token, txLocal (_initialize token))
  /\ (forall store token message db',
        SqliteMirrorRepository (Some (Database.connect store)) token
        = (Throw message, db') ->
        db' = Some (Database.connect store)).
Proof.
  split; [|split; [|split; [|split]]].
  - intros queries db H. unfold _transaction. rewrite H. reflexivity.
  - intros queries db Hout opened. split.
    + intros db1 Hq Hin. exact (_transaction_open _ _ _ _ Hout Hq Hin).
    + intros message db1 Hq Hin. exact (_transaction_open _ _ _ _ Hout Hq Hin).
  - intros queries db message db1 Hout Hlocal Hq.
    pose proof (inTransaction_false_connect db Hout) as Hdb.
    pose proof (_transaction_run queries (Database.committed db) Hlocal) as Hrun.
    rewrite <- Hdb, Hq in Hrun. exact Hrun.
  - apply txLocal_initialize.
  - intros store token message db' H. unfold SqliteMirrorRepository in H.
    rewrite (_transaction_run _ store (txLocal_initialize token)) in H.
    destruct (_initialize token _) as [[[]|message'] db1];
      injection H as H1 H2; congruence.
Qed.

(** A nested call throws; on a pristine store the initialisation returns
    and its writes are committed; the store where [members] exists without
    [meta] makes the initialisation throw at its second table, after [meta],
    its row and [channels] were written, and ends as it was. *)
Lemma transaction_guard_witness :
  _transaction (_initialize Sample.token)
    {| Database.committed := Store.pristine;
       Database.working := Some Store.pristine |}
  = (Throw "already in transaction",
     {| Database.committed := Store.pristine;
        Database.working := Some Store.pristine |})
  /\ _transaction (_initialize Sample.token) (Database.connect Store.pristine)
     = (Return tt,
        Database.connect
          {| Store.meta := Some [(0%Z, stringify_version VERSION)];
             Store.tables := list_to_set contentTables |})
  /\ _transaction (_initialize Sample.token) (Database.connect Sample.halfBuilt)
     = (Throw "table members already exists", Database.connect Sample.halfBuilt)
  /\ SqliteMirrorRepository (Some (Database.connect Sample.halfBuilt)) Sample.token
     = (Throw "table members already exists",
        Some (Database.connect Sample.halfBuilt)).
Proof.
  destruct transaction_guard as (Hnested & Hopen & Hundo & Hlocal & Hatomic).
  split; [|split; [|split]].
  - apply Hnested. reflexivity.
  - destruct (Hopen (_initialize Sample.token)
                (Database.connect Store.pristine) eq_refl) as [Hcommit _].
    etransitivity.
    + apply (Hcommit (snd (_initialize Sample.token
                             {| Database.committed := Store.pristine;
                                Database.working := Some Store.pristine |}))).
      * vm_compute. reflexivity.
      * vm_compute. reflexivity.
    + vm_compute. reflexivity.
  - apply (Hundo (_initialize Sample.token)
             (Database.connect Sample.halfBuilt)
             "table members already exists"
             (snd (_initialize Sample.token
                     {| Database.committed := Sample.halfBuilt;
                        Database.working := Some Sample.halfBuilt |}))).
    + reflexivity.
    + apply Hlocal.
    + vm_compute. reflexivity.
  - assert (Hthrows : fst (SqliteMirrorRepository
                             (Some (Database.connect Sample.halfBuilt))
                             Sample.token)
                      = Throw "table members already exists")
      by (vm_compute; reflexivity).
    destruct (SqliteMirrorRepository _ _) as [r db'] eqn:Hnew.
    cbn in Hthrows. subst r.
    rewrite (Hatomic _ _ _ _ Hnew). reflexivity.
Defined.

(** ** The mirror store: version guard *)

(** The initialisation on an opened handle whose [meta] has a first row. *)
Lemma _initialize_stamped token store zero config rows :
  Store.meta store = Some ((zero, config) :: rows) ->
  _initialize token {| Database.committed := store;
                       Database.working := Some store |}
  = if String.eqb config (stringify_version VERSION)
    then (Return tt, {| Database.committed := store;
                        Database.working := Some store |})
    else (Throw "Database already populated with incompatible server or version",
          {| Database.committed := store; Database.working := Some store |}).
Proof.
  intros Hmeta. unfold _initialize, bind, Sql.createMetaIfNotExists,
    Sql.selectConfig, Database.write, Database.current.
  cbn [Database.working Database.committed]. rewrite Hmeta.
  cbn [Database.working Database.committed]. rewrite Hmeta.
  destruct (String.eqb config (stringify_version VERSION)); reflexivity.
Qed.

(** C3: on a store whose [meta] holds the current version the constructor
    returns and leaves the store as it is; on a store whose [meta] holds
    another config it throws, and the store stays as it is; on a pristine
    store it writes the row (0, the JSON object with the version
    slack_mirror_v0) and creates the five content tables channels, members,
    messages, message_reactions and message_mentions, and nothing else; a
    second construction on the result changes nothing. *)
Theorem version_guard :
  (forall store token zero rows,
      Store.meta store = Some ((zero, stringify_version VERSION) :: rows) ->
      SqliteMirrorRepository (Some (Database.connect store)) token
      = (Return tt, Some (Database.connect store)))
  /\ (forall store token zero config rows,
        Store.meta store = Some ((zero, config) :: rows) ->
        config <> stringify_version VERSION ->
        SqliteMirrorRepository (Some (Database.connect store)) token
        = (Throw "Database already populated with incompatible server or version",
           Some (Database.connect store)))
  /\ (forall token,
        SqliteMirrorRepository (Some (Database.connect Store.pristine)) token
        = (Return tt,
           Some (Database.connect
                   {| Store.meta :=
                        Some [(0%Z,
                               "{" +:+ dquote +:+ "version" +:+ dquote +:+ ":"
                                   +:+ dquote +:+ "slack_mirror_v0" +:+ dquote
                                   +:+ "}")];
                      Store.tables :=
                        {[ "channels"; "members"; "messages";
                           "message_reactions"; "message_mentions" ]} |})))
  /\ (forall token token',
        SqliteMirrorRepository
          (snd (SqliteMirrorRepository
                  (Some (Database.connect Store.pristine)) token)) token'
        = SqliteMirrorRepository (Some (Database.connect Store.pristine)) token)
  /\ (forall token db,
        SqliteMirrorRepository (Some (Database.connect Store.pristine)) token
        = (Return tt, Some db) ->
        size (Store.tables (Database.committed db)) = 5
        /\ forall name,
            name ∈ Store.tables (Database.committed db)
            <-> name = "channels" \/ name = "members" \/ name = "messages"
                \/ name = "message_reactions" \/ name = "message_mentions").
Proof.
  assert (Hsame : forall store token zero rows,
             Store.meta store = Some ((zero, stringify_version VERSION) :: rows) ->
             SqliteMirrorRepository (Some (Database.connect store)) token
             = (Return tt, Some (Database.connect store))).
  { intros store token zero rows Hmeta. unfold SqliteMirrorRepository.
    rewrite (_transaction_run _ store (txLocal_initialize token)).
    rewrite (_initialize_stamped token store _ _ _ Hmeta).
    rewrite String.eqb_refl. reflexivity. }
  assert (Hfresh : forall token,
             SqliteMirrorRepository (Some (Database.connect Store.pristine)) token
             = (Return tt,
                Some (Database.connect
                        {| Store.meta :=
                             Some [(0%Z,
                                    "{" +:+ dquote +:+ "version" +:+ dquote
                                        +:+ ":" +:+ dquote +:+ "slack_mirror_v0"
                                        +:+ dquote +:+ "}")];
                           Store.tables :=
                             {[ "channels"; "members"; "messages";
                                "message_reactions"; "message_mentions" ]} |}))).
  { intros token. vm_compute. reflexivity. }
  split; [exact Hsame|]. split; [|split; [exact Hfresh|split]].
  - intros store token zero config rows Hmeta Hother.
    unfold SqliteMirrorRepository.
    rewrite (_transaction_run _ store (txLocal_initialize token)).
    rewrite (_initialize_stamped token store _ _ _ Hmeta).
    apply String.eqb_neq in Hother. rewrite Hother. reflexivity.
  - intros token token'. rewrite Hfresh. cbn [snd].
    apply (Hsame _ token' 0%Z []). reflexivity.
  - intros token db H. rewrite Hfresh in H. injection H as <-.
    cbn [Database.committed Database.connect Store.tables]. split.
    + vm_compute. reflexivity.
    + intros name. rewrite !elem_of_union, !elem_of_singleton. tauto.
Qed.

(** The two stamped sample stores. *)
Lemma version_guard_witness :
  SqliteMirrorRepository (Some (Database.connect Sample.stamped)) Sample.token
  = (Return tt, Some (Database.connect Sample.stamped))
  /\ SqliteMirrorRepository (Some (Database.connect Sample.foreign)) Sample.token
     = (Throw "Database already populated with incompatible server or version",
        Some (Database.connect Sample.foreign)).
Proof.
  destruct version_guard as (Hsame & Hother & _ & _).
  split.
  - apply (Hsame Sample.stamped Sample.token 0%Z []). reflexivity.
  - apply (Hother Sample.foreign Sample.token 0%Z
             (stringify_version "slack_mirror_v1") []).
    + reflexivity.
    + intros H. discriminate H.
Defined.

(** The test of mirrorRepository.test.js: after the construction on a new
    in-memory database, the first row of [meta] is (0, the JSON object with
    the version). *)
Example initialises_the_tables_correctly :
  exists db,
    SqliteMirrorRepository (Some (Database.connect Store.pristine)) Sample.token
    = (Return tt, Some db)
    /\ Store.meta (Database.current db)
       = Some [(0%Z, "{" +:+ dquote +:+ "version" +:+ dquote +:+ ":"
                     +:+ dquote +:+ "slack_mirror_v0" +:+ dquote +:+ "}")].
Proof. eexists. split; vm_compute; reflexivity. Qed.

(** * Further properties of the graph builder *)

(** ** The member map *)

Lemma memberMapOf_snoc members member :
  memberMapOf (members ++ [member])
  = <[User.id member := member]> (memberMapOf members).
Proof. unfold memberMapOf. rewrite foldl_app. reflexivity. Qed.

Lemma memberMapOf_Some members : forall userId member,
  memberMapOf members !! userId = Some member ->
  In member members /\ User.id member = userId.
Proof.
  induction members as [|last members IH] using rev_ind; intros userId member H.
  - discriminate H.
  - rewrite memberMapOf_snoc in H.
    destruct (decide (User.id last = userId)) as [Heq|Hne].
    + subst userId. rewrite lookup_insert_eq in H. injection H as <-.
      split; [apply in_or_app; right; left; reflexivity | reflexivity].
    + rewrite lookup_insert_ne in H by exact Hne.
      destruct (IH _ _ H) as [Hin Hid].
      split; [apply in_or_app; left; exact Hin | exact Hid].
Qed.

Lemma memberMapOf_None members : forall userId,
  memberMapOf members !! userId = None <->
  forall member, In member members -> User.id member <> userId.
Proof.
  induction members as [|last members IH] using rev_ind; intros userId.
  - split; [intros _ member [] | reflexivity].
  - rewrite memberMapOf_snoc. split.
    + intros H member Hin.
      destruct (decide (User.id last = userId)) as [Heq|Hne].
      * subst userId. rewrite lookup_insert_eq in H. discriminate H.
      * rewrite lookup_insert_ne in H by exact Hne.
        apply in_app_or in Hin as [Hin|[<-|[]]]; [|exact Hne].
        exact (proj1 (IH userId) H member Hin).
    + intros H.
      rewrite lookup_insert_ne
        by (apply H, in_or_app; right; left; reflexivity).
      apply IH. intros member Hin. apply H, in_or_app. left. exact Hin.
Qed.

Lemma memberMapOf_last_wins earlier member : forall later,
  (forall other, In other later -> User.id other <> User.id member) ->
  memberMapOf (earlier ++ member :: later) !! User.id member = Some member.
Proof.
  induction later as [|last later IH] using rev_ind; intros Hlater.
  - rewrite memberMapOf_snoc. apply lookup_insert_eq.
  - change (earlier ++ member :: later ++ [last])%list
      with (earlier ++ (member :: later) ++ [last])%list.
    rewrite app_assoc, memberMapOf_snoc.
    rewrite lookup_insert_ne
      by (apply Hlater, in_or_app; right; left; reflexivity).
    apply IH. intros other Hin. apply Hlater, in_or_app. left. exact Hin.
Qed.

(** X1: the member map finds a member by its id: a hit is a member of the
    list with that id, a miss means no member of the list has the id, and
    of several members with one id the last of the list is the one found. *)
Theorem member_map_lookup (members : list User.t) (userId : string) :
  (forall member,
      memberMapOf members !! userId = Some member ->
      In member members /\ User.id member = userId)
  /\ (memberMapOf members !! userId = None <->
      forall member, In member members -> User.id member <> userId)
  /\ (forall earlier member later,
        members = (earlier ++ member :: later)%list ->
        User.id member = userId ->
        (forall other, In other later -> User.id other <> userId) ->
        memberMapOf members !! userId = Some member).
Proof.
  split; [|split].
  - intros member. apply memberMapOf_Some.
  - apply memberMapOf_None.
  - intros earlier member later -> <- Hlater.
    apply memberMapOf_last_wins. exact Hlater.
Qed.

(** Of two members with the id A the second is found; nobody has the id
    GHOST. *)
Lemma member_map_lookup_witness :
  memberMapOf [Sample.alice; Sample.bob;
               User.mk "A" "alice again" "alice@example.com"] !! "A"
  = Some (User.mk "A" "alice again" "alice@example.com")
  /\ forall member,
      In member [Sample.alice; Sample.bob] -> User.id member <> "GHOST".
Proof.
  split.
  - apply (proj2 (proj2 (member_map_lookup
                           [Sample.alice; Sample.bob;
                            User.mk "A" "alice again" "alice@example.com"] "A"))
             [Sample.alice; Sample.bob]
             (User.mk "A" "alice again" "alice@example.com") []);
      [reflexivity | reflexivity | intros other []].
  - apply (proj1 (proj1 (proj2 (member_map_lookup
                                  [Sample.alice; Sample.bob] "GHOST")))).
    vm_compute. reflexivity.
Defined.

(** ** Where nodes and weights come from *)

(** X2: a node without timestamp is the Member node of a member of the
    mirror's member list: Member nodes are never made up from an id alone. *)
Theorem member_nodes_are_mirror_members `{E : Externs} token repo weights n :
  In n (nodes (createGraph token repo weights)) ->
  Node.timestampMs n = None ->
  exists member, In member (Repo.members repo) /\ n = memberNode member.
Proof.
  intros Hn Hnone. apply In_nodes, createGraph_call_origin in Hn
    as (channel & message & _ & _ & _ & [H|[H|[H|H]]]).
  - destruct H as (reaction & member & _ & Hmember & H).
    rewrite (reactionCalls_known _ _ _ _ _ Hmember) in H.
    destruct H as [H|[H|[H|[H|[H|[]]]]]]; try discriminate H;
      injection H as <-; [discriminate Hnone|].
    exists member. split; [|reflexivity].
    exact (proj1 (memberMapOf_Some _ _ _ Hmember)).
  - destruct H as (user & member & _ & Hmember & H).
    unfold mentionCalls in H. rewrite Hmember in H.
    destruct H as [H|[H|[]]]; try discriminate H. injection H as <-.
    exists member. split; [|reflexivity].
    exact (proj1 (memberMapOf_Some _ _ _ Hmember)).
  - unfold threadCalls in H. destruct (isThreadStarter message); [|destruct H].
    destruct H as [H|H]; [injection H as <-; discriminate Hnone|].
    apply in_flat_map in H as (replyId & _ & [H|[H|[]]]); try discriminate H.
    injection H as <-. discriminate Hnone.
  - unfold authorCalls in H.
    destruct (hasEdgesOf _ _ _); [|destruct H].
    destruct (memberMapOf (Repo.members repo) !! Message.authorId message)
      as [author|] eqn:Hauthor; [|destruct H].
    destruct H as [H|[H|[H|[]]]]; try discriminate H; injection H as <-;
      [|discriminate Hnone].
    exists author. split; [|reflexivity].
    exact (proj1 (memberMapOf_Some _ _ _ Hauthor)).
Qed.

(** The Member node of B in scenario 3. *)
Lemma member_nodes_are_mirror_members_witness :
  exists member,
    In member [Sample.alice; Sample.bob]
    /\ memberNode (E := Sample.externs) Sample.bob
       = memberNode (E := Sample.externs) member.
Proof.
  apply (member_nodes_are_mirror_members (E := Sample.externs) Sample.token
           Sample.reactedMirror Sample.config).
  - vm_compute. right. left. reflexivity.
  - reflexivity.
Defined.

(** X3: every node weight handed to the container is the resolver's value
    for a reaction of a known member on a message of the mirror, set at the
    address of the node that the same turn of the loop adds: no weight is
    set at an address without a node, and only reactions get weights. *)
Theorem node_weights_belong_to_reaction_nodes `{E : Externs} token repo weights a w :
  In (a, w) (nodeWeights (createGraph token repo weights)) ->
  exists channel message reaction member,
    In channel (Repo.channels repo)
    /\ In message (Repo.messages repo (Channel.id channel))
    /\ In reaction (Repo.reactions repo (Message.channel message)
                      (Message.id message))
    /\ memberMapOf (Repo.members repo) !! Reaction.reactor reaction = Some member
    /\ w = reactionWeight weights (Reaction.reaction reaction)
             (Reaction.reactor reaction) (Message.authorId message)
             (Message.channel message)
    /\ a = Node.address (reactionNode message (Obj reaction))
    /\ In (reactionNode message (Obj reaction))
         (nodes (createGraph token repo weights)).
Proof.
  intros H. apply In_nodeWeights in H.
  pose proof H as Hcall.
  apply createGraph_call_origin in H
    as (channel & message & Hc & Hm & Hguard & [H|[H|[H|H]]]).
  - destruct H as (reaction & member & Hr & Hmember & H).
    exists channel, message, reaction, member.
    repeat (split; [assumption|]).
    pose proof (reactionCalls_known weights _ message _ _ Hmember) as Hcalls.
    rewrite Hcalls in H.
    destruct H as [H|[H|[H|[H|[H|[]]]]]]; try discriminate H.
    injection H as <- <-. repeat (split; [reflexivity|]).
    apply In_nodes.
    apply (messageCalls_in_createGraph token repo weights channel message);
      try assumption.
    apply In_messageCalls. split; [assumption|]. left.
    exists reaction. split; [assumption|]. rewrite Hcalls.
    right. left. reflexivity.
  - destruct H as (user & member & _ & Hmember & H).
    unfold mentionCalls in H. rewrite Hmember in H.
    destruct H as [H|[H|[]]]; discriminate H.
  - unfold threadCalls in H. destruct (isThreadStarter message); [|destruct H].
    destruct H as [H|H]; [discriminate H|].
    apply in_flat_map in H as (replyId & _ & [H|[H|[]]]); discriminate H.
  - unfold authorCalls in H.
    destruct (hasEdgesOf _ _ _); [|destruct H].
    destruct (memberMapOf (Repo.members repo) !! Message.authorId message);
      [|destruct H].
    destruct H as [H|[H|[H|[]]]]; discriminate H.
Qed.

(** The one weight of scenario 3. *)
Lemma node_weights_belong_to_reaction_nodes_witness :
  exists channel message reaction member,
    In channel (Repo.channels Sample.reactedMirror)
    /\ In message (Repo.messages Sample.reactedMirror (Channel.id channel))
    /\ In reaction (Repo.reactions Sample.reactedMirror
                      (Message.channel message) (Message.id message))
    /\ memberMapOf (Repo.members Sample.reactedMirror)
         !! Reaction.reactor reaction = Some member
    /\ 2%float
       = reactionWeight (Externs := Sample.externs) Sample.config
           (Reaction.reaction reaction) (Reaction.reactor reaction)
           (Message.authorId message) (Message.channel message)
    /\ Node.address (reactionNode (E := Sample.externs) Sample.reacted
                       (Obj (Sample.thumbsupBy "B")))
       = Node.address (reactionNode (E := Sample.externs) message (Obj reaction))
    /\ In (reactionNode (E := Sample.externs) message (Obj reaction))
         (nodes (Sample.graphOf Sample.reactedMirror)).
Proof.
  apply (node_weights_belong_to_reaction_nodes (E := Sample.externs)
           Sample.token Sample.reactedMirror Sample.config).
  vm_compute. left. reflexivity.
Defined.

(** ** Edges and their end points *)

Lemma node_address_in wg n :
  In (AddNode n) wg -> In (Node.address n) (map Node.address (nodes wg)).
Proof. intros H. apply in_map, In_nodes. exact H. Qed.

(** X4: the end points that the graph builder always provides. For a
    message of the mirror that passed the guard: both ends of a RepliesTo
    edge of a thread starter and both ends of its AuthorsMessage edge are
    addresses of nodes of the graph, and so are the member end of a Mentions
    edge and the member end of an AddsReaction edge; the edges themselves
    are in the graph. *)
Theorem edges_with_end_points `{E : Externs} token repo weights channel message :
  let memberMap := memberMapOf (Repo.members repo) in
  let wg := createGraph token repo weights in
  let addresses := map Node.address (nodes wg) in
  In channel (Repo.channels repo) ->
  In message (Repo.messages repo (Channel.id channel)) ->
  passesGuard message = true ->
  (isThreadStarter message = true ->
     forall replyId,
       In replyId (Repo.thread repo (Message.id message)) ->
       In (repliesEdge message (Repo.message repo replyId)) (edges wg)
       /\ In (Edge.src (repliesEdge message (Repo.message repo replyId)))
            addresses
       /\ In (Edge.dst (repliesEdge message (Repo.message repo replyId)))
            addresses)
  /\ (forall author,
        hasEdgesOf repo memberMap message = true ->
        memberMap !! Message.authorId message = Some author ->
        In (authorsMessageEdge message author) (edges wg)
        /\ In (Edge.src (authorsMessageEdge message author)) addresses
        /\ In (Edge.dst (authorsMessageEdge message author)) addresses)
  /\ (forall user member,
        In user (Message.mentions message) ->
        memberMap !! user = Some member ->
        In (mentionsEdge message member) (edges wg)
        /\ In (Edge.dst (mentionsEdge message member)) addresses)
  /\ (forall reaction member,
        In reaction (Repo.reactions repo (Message.channel message)
                       (Message.id message)) ->
        memberMap !! Reaction.reactor reaction = Some member ->
        In (addsReactionEdge (Str (Reaction.reaction reaction)) member message)
          (edges wg)
        /\ In (Edge.src (addsReactionEdge (Str (Reaction.reaction reaction))
                           member message)) addresses).
Proof.
  intros memberMap wg addresses Hc Hm Hguard.
  assert (Hback : forall call,
             In call (messageCalls repo weights memberMap channel message) ->
             In call wg).
  { intros call. apply messageCalls_in_createGraph; assumption. }
  split; [|split; [|split]].
  - intros Hstart replyId Hreply.
    assert (Hthread : forall call,
               In call (threadCalls repo channel message) -> In call wg).
    { intros call Hin. apply Hback, In_messageCalls.
      split; [assumption|]. right; right; left. exact Hin. }
    unfold threadCalls in Hthread. rewrite Hstart in Hthread.
    split; [|split].
    + apply In_edges, Hthread. right. apply in_flat_map.
      exists replyId. split; [assumption|]. right; left; reflexivity.
    + apply (node_address_in wg (messageNode message (Channel.name channel))).
      apply Hthread. left. reflexivity.
    + apply (node_address_in wg
               (messageNode (Repo.message repo replyId) (Channel.name channel))).
      apply Hthread. right. apply in_flat_map.
      exists replyId. split; [assumption|]. left; reflexivity.
  - intros author Hedges Hauthor.
    assert (Hblock : forall call,
               In call [AddNode (memberNode author);
                        AddNode (messageNode message (Channel.name channel));
                        AddEdge (authorsMessageEdge message author)] ->
               In call wg).
    { intros call Hin. apply Hback, In_messageCalls.
      split; [assumption|]. right; right; right.
      unfold authorCalls. rewrite Hedges, Hauthor. exact Hin. }
    split; [|split].
    + apply In_edges, Hblock. right; right; left; reflexivity.
    + apply (node_address_in wg (memberNode author)), Hblock.
      left; reflexivity.
    + apply (node_address_in wg (messageNode message (Channel.name channel))),
        Hblock.
      right; left; reflexivity.
  - intros user member Huser Hmember.
    assert (Hturn : forall call,
               In call [AddNode (memberNode member);
                        AddEdge (mentionsEdge message member)] ->
               In call wg).
    { intros call Hin. apply Hback, In_messageCalls.
      split; [assumption|]. right; left. exists user. split; [assumption|].
      unfold mentionCalls. rewrite Hmember. exact Hin. }
    split.
    + apply In_edges, Hturn. right; left; reflexivity.
    + apply (node_address_in wg (memberNode member)), Hturn. left; reflexivity.
  - intros reaction member Hreaction Hmember.
    assert (Hturn : forall call,
               In call (reactionCalls weights memberMap message reaction) ->
               In call wg).
    { intros call Hin. apply Hback, In_messageCalls.
      split; [assumption|]. left. exists reaction. split; assumption. }
    rewrite (reactionCalls_known _ _ _ _ _ Hmember) in Hturn.
    split.
    + apply In_edges, Hturn. do 4 right. left. reflexivity.
    + apply (node_address_in wg (memberNode member)), Hturn.
      right; right; left; reflexivity.
Qed.

(** The AuthorsMessage edge of scenario 3 and the second reply of the
    flagged thread. *)
Lemma edges_with_end_points_witness :
  (In (authorsMessageEdge (E := Sample.externs) Sample.reacted Sample.alice)
     (edges (Sample.graphOf Sample.reactedMirror))
   /\ In (memberAddress (E := Sample.externs) Sample.alice)
        (map Node.address (nodes (Sample.graphOf Sample.reactedMirror)))
   /\ In (messageAddress (E := Sample.externs) Sample.reacted)
        (map Node.address (nodes (Sample.graphOf Sample.reactedMirror))))
  /\ In (repliesEdge (E := Sample.externs) Sample.flaggedStarter Sample.M3)
       (edges (Sample.graphOf Sample.flaggedThread))
  /\ In (addsReactionEdge (E := Sample.externs) (Str "thumbsup") Sample.bob
           Sample.reacted)
       (edges (Sample.graphOf Sample.reactedMirror)).
Proof.
  destruct (edges_with_end_points (E := Sample.externs) Sample.token
              Sample.reactedMirror Sample.config Sample.general Sample.reacted)
    as (_ & Hauthor & _ & Hreaction);
    [left; reflexivity | left; reflexivity | reflexivity |].
  destruct (edges_with_end_points (E := Sample.externs) Sample.token
              Sample.flaggedThread Sample.config Sample.general
              Sample.flaggedStarter)
    as (Hreply & _);
    [left; reflexivity | left; reflexivity | reflexivity |].
  split; [|split].
  - apply (Hauthor Sample.alice); vm_compute; reflexivity.
  - apply (Hreply eq_refl "1600000120"). right; left; reflexivity.
  - apply (Hreaction (Sample.thumbsupBy "B") Sample.bob).
    + left. reflexivity.
    + vm_compute. reflexivity.
Defined.

(** ** The guard on the flags *)

(** X5: a mirror in which no message has the flag hasReactions or
    hasMentions gives the empty graph, whatever its members, reactions and
    threads are; so does a mirror without channels. *)
Theorem graph_of_unflagged_mirror `{E : Externs} token repo weights :
  (forall channel message,
      In channel (Repo.channels repo) ->
      In message (Repo.messages repo (Channel.id channel)) ->
      Message.hasReactions message = false
      /\ Message.hasMentions message = false) ->
  createGraph token repo weights = [].
Proof.
  intros Hflags. destruct (createGraph token repo weights) as [|call wg] eqn:Hwg;
    [reflexivity|].
  assert (Hin : In call (createGraph token repo weights))
    by (rewrite Hwg; left; reflexivity).
  apply In_createGraph in Hin as (channel & message & Hc & Hm & Hin).
  apply In_messageCalls in Hin as (Hguard & _).
  destruct (Hflags channel message Hc Hm) as [Hr Hn].
  unfold passesGuard in Hguard. rewrite Hr, Hn in Hguard. discriminate Hguard.
Qed.

(** The thread of scenario 4. *)
Lemma graph_of_unflagged_mirror_witness :
  Sample.graphOf Sample.quietThread = [].
Proof.
  apply (graph_of_unflagged_mirror (E := Sample.externs)).
  intros channel message [<-|[]] [<-|[]]. split; reflexivity.
Defined.

(** X6: which of the unflagged messages a channel lists does not matter:
    taking the messages with neither flag off the lists of [repo.messages]
    leaves the graph as it is. (What [repo.thread] and [repo.message] return
    is kept: an unflagged message still reaches the graph as a reply of a
    thread starter.) *)
Theorem unflagged_listing_does_not_matter `{E : Externs} token repo weights :
  createGraph token (listingFlaggedOnly repo) weights
  = createGraph token repo weights.
Proof.
  rewrite !createGraph_calls.
  change (Repo.members (listingFlaggedOnly repo)) with (Repo.members repo).
  change (Repo.channels (listingFlaggedOnly repo)) with (Repo.channels repo).
  apply flat_map_ext. intros channel. unfold channelCalls.
  change (Repo.messages (listingFlaggedOnly repo) (Channel.id channel))
    with (filter (fun message => passesGuard message = true)
            (Repo.messages repo (Channel.id channel))).
  rewrite <- (flat_map_filter_nil passesGuard
                (messageCalls repo weights (memberMapOf (Repo.members repo))
                   channel)).
  - apply flat_map_ext. intros message. reflexivity.
  - intros message Hguard. unfold messageCalls. rewrite Hguard. reflexivity.
Qed.

(** ** The graph grows by appending *)

(** X7: the loops only append to the graph, and what a message or a channel
    appends does not depend on the graph built so far; so the graph of the
    channels [cs1 ++ cs2] is the graph of [cs1] followed by the graph of
    [cs2]. *)
Theorem graph_grows_by_appending `{E : Externs} token repo weights :
  let memberMap := memberMapOf (Repo.members repo) in
  (forall channel wg message,
      messageStep repo weights memberMap channel wg message
      = (wg ++ messageStep repo weights memberMap channel [] message)%list)
  /\ (forall wg channel,
        channelStep repo weights memberMap wg channel
        = (wg ++ channelStep repo weights memberMap [] channel)%list)
  /\ (forall cs1 cs2,
        createGraph token (withChannels repo (cs1 ++ cs2)) weights
        = (createGraph token (withChannels repo cs1) weights
           ++ createGraph token (withChannels repo cs2) weights)%list).
Proof.
  intros memberMap. split; [|split].
  - intros channel wg message. rewrite !messageStep_calls. reflexivity.
  - intros wg channel. unfold channelStep. rewrite !messageLoop_calls.
    reflexivity.
  - intros cs1 cs2. rewrite !createGraph_calls.
    change (Repo.channels (withChannels repo (cs1 ++ cs2))) with (cs1 ++ cs2)%list.
    rewrite flat_map_app. reflexivity.
Qed.

(** * Further properties of the mirror store *)

(** X13: the guard never leaks a transaction: called outside a transaction
    it ends outside a transaction, whatever the body does and however it
    ends; called inside one it leaves the handle untouched. *)
Theorem transaction_never_left_open (queries : M unit) (db : Database.t) :
  (Database.inTransaction db = false ->
   Database.inTransaction (snd (_transaction queries db)) = false)
  /\ (Database.inTransaction db = true ->
      snd (_transaction queries db) = db).
Proof.
  split; intros H; unfold _transaction; rewrite H; [|reflexivity].
  unfold tryFinally, bind, Sql.BEGIN. rewrite H.
  destruct (queries _) as [[[]|message] [committed [working|]]];
    reflexivity.
Qed.

(** The initialisation of the half built store, inside the guard. *)
Lemma transaction_never_left_open_witness :
  Database.inTransaction
    (snd (_transaction (_initialize Sample.token)
            (Database.connect Sample.halfBuilt))) = false.
Proof.
  apply (proj1 (transaction_never_left_open (_initialize Sample.token)
                  (Database.connect Sample.halfBuilt))).
  reflexivity.
Defined.

Lemma current_write f db :
  Database.current (Database.write f db) = f (Database.current db).
Proof. destruct db as [committed [working|]]; reflexivity. Qed.

Lemma createTable_meta name db r db1 :
  Sql.createTable name db = (r, db1) ->
  Store.meta (Database.current db1) = Store.meta (Database.current db).
Proof.
  unfold Sql.createTable. destruct (bool_decide _); intros H;
    injection H as _ <-; [reflexivity|].
  rewrite current_write. reflexivity.
Qed.

Lemma forEach_createTable_meta names : forall db r db1,
  forEach Sql.createTable names db = (r, db1) ->
  Store.meta (Database.current db1) = Store.meta (Database.current db).
Proof.
  induction names as [|name names IH]; intros db r db1 H; cbn [forEach] in H.
  - injection H as _ <-. reflexivity.
  - unfold bind in H.
    destruct (Sql.createTable name db) as [[[]|message] db'] eqn:Hcreate.
    + rewrite (IH _ _ _ H). exact (createTable_meta _ _ _ _ Hcreate).
    + injection H as _ <-. exact (createTable_meta _ _ _ _ Hcreate).
Qed.

(** After an initialisation that returns, the first row of [meta] holds the
    current version. *)
Lemma _initialize_returns_stamped token db db1 :
  _initialize token db = (Return tt, db1) ->
  exists zero rows,
    Store.meta (Database.current db1)
    = Some ((zero, stringify_version VERSION) :: rows).
Proof.
  unfold _initialize, bind, Sql.createMetaIfNotExists, Sql.selectConfig,
    Sql.insertMeta, Database.write, Database.current.
  destruct db as [[cmeta ctables] [[wmeta wtables]|]];
    cbn [Database.working Database.committed Store.meta Store.tables].
  - destruct wmeta as [[|[zero config] rows]|];
      cbn [Database.working Database.committed Store.meta Store.tables
           existsb app].
    + intros H. apply forEach_createTable_meta in H.
      fold (Database.current db1). rewrite H. cbn. eauto.
    + destruct (String.eqb config (stringify_version VERSION)) eqn:Heq;
        intros H; [|discriminate H].
      injection H as <-. apply String.eqb_eq in Heq. subst config.
      cbn. eauto.
    + intros H. apply forEach_createTable_meta in H.
      fold (Database.current db1). rewrite H. cbn. eauto.
  - destruct cmeta as [[|[zero config] rows]|];
      cbn [Database.working Database.committed Store.meta Store.tables
           existsb app].
    + intros H. apply forEach_createTable_meta in H.
      fold (Database.current db1). rewrite H. cbn. eauto.
    + destruct (String.eqb config (stringify_version VERSION)) eqn:Heq;
        intros H; [|discriminate H].
      injection H as <-. apply String.eqb_eq in Heq. subst config.
      cbn. eauto.
    + intros H. apply forEach_createTable_meta in H.
      fold (Database.current db1). rewrite H. cbn. eauto.
Qed.

(** X14: whatever store the constructor starts from, when it returns the
    handle is outside a transaction, the first row of [meta] holds the
    current version, and a second construction on that handle returns and
    changes nothing. *)
Theorem constructed_store_is_stamped store token db' :
  SqliteMirrorRepository (Some (Database.connect store)) token
  = (Return tt, Some db') ->
  Database.inTransaction db' = false
  /\ (exists zero rows,
        Store.meta (Database.committed db')
        = Some ((zero, stringify_version VERSION) :: rows))
  /\ (forall token',
        SqliteMirrorRepository (Some db') token' = (Return tt, Some db')).
Proof.
  unfold SqliteMirrorRepository.
  rewrite (_transaction_run _ store (txLocal_initialize token)).
  destruct (_initialize token _) as [[[]|message] db1] eqn:Hinit; intros H;
    [|discriminate H].
  injection H as <-.
  destruct (_initialize_returns_stamped _ _ _ Hinit) as (zero & rows & Hmeta).
  split; [reflexivity|]. split; [exists zero, rows; exact Hmeta|].
  intros token'.
  rewrite (_transaction_run _ _ (txLocal_initialize token')).
  rewrite (_initialize_stamped token' _ _ _ _ Hmeta), String.eqb_refl.
  reflexivity.
Qed.

(** The construction on a pristine store, then a second one. *)
Lemma constructed_store_is_stamped_witness :
  SqliteMirrorRepository
    (Some (Database.connect
             {| Store.meta := Some [(0%Z, stringify_version VERSION)];
                Store.tables := list_to_set contentTables |})) "ANOTHER_TOKEN"
  = (Return tt,
     Some (Database.connect
             {| Store.meta := Some [(0%Z, stringify_version VERSION)];
                Store.tables := list_to_set contentTables |})).
Proof.
  apply (constructed_store_is_stamped Store.pristine Sample.token).
  vm_compute. reflexivity.
Defined.

Lemma NoDup_contentTables : NoDup contentTables.
Proof.
  apply (bool_decide_unpack _). vm_compute. exact I.
Qed.

Lemma forEach_createTable_conflict names : forall committed s,
  NoDup names ->
  (exists name, In name names /\ name ∈ Store.tables s) ->
  exists name db1,
    In name names
    /\ name ∈ Store.tables s
    /\ forEach Sql.createTable names
         {| Database.committed := committed; Database.working := Some s |}
       = (Throw ("table " +:+ name +:+ " already exists"), db1).
Proof.
  induction names as [|name names IH]; intros committed s Hnodup Hexists.
  - destruct Hexists as (name & [] & _).
  - apply NoDup_cons in Hnodup as [Hname Hnodup].
    cbn [forEach]. unfold bind, Sql.createTable.
    cbn [Database.current Database.working].
    destruct (decide (name ∈ Store.tables s)) as [Hin|Hout].
    + rewrite bool_decide_eq_true_2 by exact Hin.
      exists name. eexists. split; [left; reflexivity|]. split; [exact Hin|].
      reflexivity.
    + rewrite bool_decide_eq_false_2 by exact Hout.
      cbn [Database.write Database.working Database.committed].
      destruct Hexists as (other & [<-|Hother] & Hin); [contradiction|].
      destruct (IH committed
                  {| Store.meta := Store.meta s;
                     Store.tables := {[name]} ∪ Store.tables s |} Hnodup)
        as (found & db1 & Hfound & Htables & Hrun).
      { exists other. split; [exact Hother|]. cbn.
        apply elem_of_union. right. exact Hin. }
      exists found, db1. split; [right; exact Hfound|].
      split; [|exact Hrun].
      cbn in Htables. apply elem_of_union in Htables as [Hsame|Htables];
        [|exact Htables].
      apply elem_of_singleton in Hsame. subst found.
      exfalso. apply Hname, list_elem_of_In. exact Hfound.
Qed.

(** The initialisation on an opened handle whose [meta] is absent or empty. *)
Lemma _initialize_unstamped token committed s :
  Store.meta s = None \/ Store.meta s = Some [] ->
  _initialize token
    {| Database.committed := committed; Database.working := Some s |}
  = forEach Sql.createTable contentTables
      {| Database.committed := committed;
         Database.working :=
           Some {| Store.meta := Some [(0%Z, stringify_version VERSION)];
                   Store.tables := Store.tables s |} |}.
Proof.
  intros Hmeta. destruct s as [meta tables]. cbn in Hmeta.
  destruct Hmeta as [->| ->]; reflexivity.
Qed.

(** X15: a half initialised store is never completed. On a store whose
    [meta] is absent or empty and in which one of the tables channels,
    members, messages, message_reactions, message_mentions exists already,
    the constructor throws on such a table (table ... already exists) and
    the store stays exactly as it was: neither the version row nor any of the
    missing tables is left behind. *)
Theorem construction_on_half_built_store store token :
  Store.meta store = None \/ Store.meta store = Some [] ->
  (exists name,
      In name ["channels"; "members"; "messages"; "message_reactions";
               "message_mentions"]
      /\ name ∈ Store.tables store) ->
  exists name,
    In name ["channels"; "members"; "messages"; "message_reactions";
             "message_mentions"]
    /\ name ∈ Store.tables store
    /\ SqliteMirrorRepository (Some (Database.connect store)) token
       = (Throw ("table " +:+ name +:+ " already exists"),
          Some (Database.connect store)).
Proof.
  intros Hmeta Hexists. unfold SqliteMirrorRepository.
  rewrite (_transaction_run _ store (txLocal_initialize token)).
  rewrite (_initialize_unstamped token store store Hmeta).
  destruct (forEach_createTable_conflict contentTables store
              {| Store.meta := Some [(0%Z, stringify_version VERSION)];
                 Store.tables := Store.tables store |}
              NoDup_contentTables Hexists)
    as (name & db1 & Hname & Hin & Hrun).
  exists name. split; [exact Hname|]. split; [exact Hin|].
  rewrite Hrun. reflexivity.
Qed.

(** The store where [members] exists without [meta]. *)
Lemma construction_on_half_built_store_witness :
  exists name,
    In name ["channels"; "members"; "messages"; "message_reactions";
             "message_mentions"]
    /\ name ∈ Store.tables Sample.halfBuilt
    /\ SqliteMirrorRepository (Some (Database.connect Sample.halfBuilt))
         Sample.token
       = (Throw ("table " +:+ name +:+ " already exists"),
          Some (Database.connect Sample.halfBuilt)).
Proof.
  apply (construction_on_half_built_store Sample.halfBuilt Sample.token
           (or_introl eq_refl)).
  exists "members". split; [right; left; reflexivity|].
  change ("members" ∈ ({[ "members" ]} : gset string)).
  apply elem_of_singleton. reflexivity.
Defined.

(** * A node handed over twice *)

(** X16: for a thread starter that passed the guard, materialised a
    reaction or a mention and has a known author, the message loop hands the
    same Message node to the container twice: once in the thread starter
    block and once more, after the Member node of the author, in the
    authorship block. *)
Theorem starter_node_handed_over_twice `{E : Externs} repo weights channel wg message author :
  let memberMap := memberMapOf (Repo.members repo) in
  let node := messageNode message (Channel.name channel) in
  passesGuard message = true ->
  isThreadStarter message = true ->
  hasEdgesOf repo memberMap message = true ->
  memberMap !! Message.authorId message = Some author ->
  exists before between,
    messageStep repo weights memberMap channel wg message
    = (wg ++ before ++ AddNode node :: between
          ++ [AddNode (memberNode author); AddNode node;
              AddEdge (authorsMessageEdge message author)])%list.
Proof.
  intros memberMap node Hguard Hstart Hedges Hauthor.
  rewrite messageStep_calls. unfold messageCalls, threadCalls, authorCalls.
  rewrite Hguard, Hstart, Hedges, Hauthor.
  exists (flat_map (reactionCalls weights memberMap message)
            (Repo.reactions repo (Message.channel message) (Message.id message))
          ++ flat_map (mentionCalls memberMap message)
               (Message.mentions message))%list.
  exists (flat_map (replyCalls repo channel message)
            (Repo.thread repo (Message.id message))).
  rewrite <- !app_assoc. reflexivity.
Qed.

(** A thread starter by A with a reaction of B and no reply. *)
Lemma starter_node_handed_over_twice_witness :
  exists before between,
    messageStep (E := Sample.externs)
      (Sample.mirror [Sample.alice; Sample.bob] Sample.flaggedStarter
         [Sample.thumbsupBy "B"] [])
      Sample.config (memberMapOf [Sample.alice; Sample.bob]) Sample.general []
      Sample.flaggedStarter
    = ([] ++ before
          ++ AddNode (messageNode (E := Sample.externs) Sample.flaggedStarter
                        "general")
          :: between
          ++ [AddNode (memberNode (E := Sample.externs) Sample.alice);
              AddNode (messageNode (E := Sample.externs) Sample.flaggedStarter
                         "general");
              AddEdge (authorsMessageEdge (E := Sample.externs)
                         Sample.flaggedStarter Sample.alice)])%list.
Proof.
  apply (starter_node_handed_over_twice (E := Sample.externs)
           (Sample.mirror [Sample.alice; Sample.bob] Sample.flaggedStarter
              [Sample.thumbsupBy "B"] [])
           Sample.config Sample.general [] Sample.flaggedStarter Sample.alice);
    vm_compute; reflexivity.
Defined.
